(** * The dual-backend financial data adapter

    A shallow embedding of [callApi] (src/tools/finance/api.ts) together
    with the fragment of the JavaScript runtime it relies on, followed by
    the properties of the adapter that the specification states.

    Conventions of the embedding.
    - A call is a computation in a writer-and-exception monad [M]: it
      produces the list of interactions with the outside world (cache reads,
      cache writes, network requests) in program order, and either a value
      or a thrown exception.  The logger is a collaborator whose output is
      not observed; only the exceptions raised while preparing a log line
      are kept.
    - Everything outside the module is gathered in a [World]: the two
      environment variables, the cache's read function, [describeRequest],
      the network and the clock.
    - A number carried by a parameter or a JSON document is kept as the
      decimal that [String] writes for it, so that every number value
      (integer or not, [NaN], the infinities) has its own string form.
      Status codes and the fields of a date are integers. *)

From Stdlib Require Import String Ascii List ZArith Lia Bool DecimalString.
Import ListNotations.
Set Warnings "-register-all".
Local Open Scope list_scope.
Local Open Scope string_scope.

(* ================================================================== *)
(** ** The JavaScript fragment *)
(* ================================================================== *)

Module Js.

(** *** Numbers

    A Number value. A finite number other than zero is kept as the
    decimal that [Number::toString] (ECMA-262, 6.1.6.1.20) selects for
    it: a sign, the digits [s] and the exponent [n], standing for
    [0.s * 10^n], that is [s * 10^(n - k)] with [k] the number of digits
    of [s]. For a double these are the shortest digits that denote it;
    trailing zeros of [s] do not count. Both zeros are written [0] and
    are falsy, and are not told apart. *)
Inductive Number : Type :=
| NaN
| Infinity (negative : bool)
| Zero
| Finite (negative : bool) (s : positive) (n : Z).

Definition digits_of (s : positive) : string :=
  NilZero.string_of_uint (Pos.to_uint s).

(** The number whose digits are those of the integer [z]: the double
    that an integer literal denotes whenever that double is written with
    the literal's digits, as every integer up to 2^53 in magnitude is. *)
Definition Number_of_Z (z : Z) : Number :=
  match z with
  | Z0 => Zero
  | Zpos s => Finite false s (Z.of_nat (String.length (digits_of s)))
  | Zneg s => Finite true s (Z.of_nat (String.length (digits_of s)))
  end.

(** Truthiness of a number: all but zero and [NaN]. *)
Definition Number_truthy (x : Number) : bool :=
  match x with
  | NaN | Zero => false
  | Infinity _ | Finite _ _ _ => true
  end.

Fixpoint zeros (n : nat) : string :=
  match n with
  | O => EmptyString
  | S k => String "0" (zeros k)
  end.

Fixpoint strip_trailing_zeros (s : string) : string :=
  match s with
  | EmptyString => EmptyString
  | String c rest =>
      match strip_trailing_zeros rest with
      | EmptyString => if Ascii.eqb c "0" then EmptyString else String c EmptyString
      | kept => String c kept
      end
  end.

(** The decimal numeral of [abs(n)] *)
Definition String_of_Z_abs (n : Z) : string :=
  NilZero.string_of_uint (N.to_uint (Z.abs_N n)).

(** [Number::toString(x, 10)], step by step: plain digits for an
    exponent [n] from -5 to 21 (an integer, a number with a decimal
    point, a number below one), the exponent notation outside. *)
Definition Number_toString (x : Number) : string :=
  match x with
  | NaN => "NaN"
  | Infinity negative => if negative then "-Infinity" else "Infinity"
  | Zero => "0"
  | Finite negative s n =>
      let digits := strip_trailing_zeros (digits_of s) in
      let k := Z.of_nat (String.length digits) in
      let magnitude :=
        if ((-5 <=? n) && (n <=? 21))%Z then
          if (k <=? n)%Z then digits ++ zeros (Z.to_nat (n - k))
          else if (0 <? n)%Z then
            substring 0 (Z.to_nat n) digits ++ "."
            ++ substring (Z.to_nat n) (Z.to_nat (k - n)) digits
          else "0." ++ zeros (Z.to_nat (- n)) ++ digits
        else
          let exponent :=
            (if (n <? 0)%Z then "-" else "+") ++ String_of_Z_abs (n - 1) in
          if (k =? 1)%Z then digits ++ "e" ++ exponent
          else substring 0 1 digits ++ "."
               ++ substring 1 (Z.to_nat (k - 1)) digits ++ "e" ++ exponent in
      if negative then "-" ++ magnitude else magnitude
  end.

(** *** Values *)

(** Values as produced by [JSON.parse], plus [undefined], which the
    adapter introduces itself (element 0 of an empty array). An object is
    its list of own properties in the engine's enumeration order. *)
Inductive Value : Type :=
| VUndefined
| VNull
| VBool (b : bool)
| VNumber (x : Number)
| VString (s : string)
| VArray (elems : list Value)
| VObject (props : list (string * Value)).

(** [s.includes(search)] *)
Fixpoint includes (s search : string) : bool :=
  prefix search s ||
  match s with
  | EmptyString => false
  | String _ rest => includes rest search
  end.

(** The decimal numeral of an integer. It is what [String(n)] and a
    template literal write for an integer below 10^21 in magnitude, as a
    status code, a length and the fields of a date are. *)
Definition String_of_Z (n : Z) : string :=
  NilZero.string_of_int (Z.to_int n).

Definition String_of_nat (n : nat) : string :=
  NilZero.string_of_uint (Nat.to_uint n).

(** Property read [o[k]] on an object's property list. *)
Fixpoint get_prop (props : list (string * Value)) (k : string) : Value :=
  match props with
  | [] => VUndefined
  | (k', v) :: rest => if String.eqb k' k then v else get_prop rest k
  end.

(** Property write [o[k] = v]: an existing key keeps its position. *)
Fixpoint set_prop (props : list (string * Value)) (k : string) (v : Value)
  : list (string * Value) :=
  match props with
  | [] => [(k, v)]
  | (k', v') :: rest =>
      if String.eqb k' k then (k', v) :: rest
      else (k', v') :: set_prop rest k v
  end.

Fixpoint index_from {A} (i : nat) (l : list A) : list (string * A) :=
  match l with
  | [] => []
  | x :: rest => (String_of_nat i, x) :: index_from (S i) rest
  end.

Fixpoint chars (s : string) : list Value :=
  match s with
  | EmptyString => []
  | String c rest => VString (String c EmptyString) :: chars rest
  end.

(** [Object.entries(v)]; [None] stands for the [TypeError] raised on
    [null] and [undefined]. *)
Definition own_entries (v : Value) : option (list (string * Value)) :=
  match v with
  | VUndefined | VNull => None
  | VBool _ | VNumber _ => Some []
  | VString s => Some (index_from 0 (chars s))
  | VArray l => Some (index_from 0 l)
  | VObject props => Some props
  end.

(** Object spread [{...acc, ...v}]: spreading [null] or [undefined]
    copies nothing. *)
Definition spread (acc : list (string * Value)) (v : Value)
  : list (string * Value) :=
  match own_entries v with
  | Some es => fold_left (fun o kv => set_prop o (fst kv) (snd kv)) es acc
  | None => acc
  end.

Definition typeof (v : Value) : string :=
  match v with
  | VUndefined => "undefined"
  | VNull => "object"
  | VBool _ => "boolean"
  | VNumber _ => "number"
  | VString _ => "string"
  | VArray _ | VObject _ => "object"
  end.

(** Property read [v.k] on a value that is not [null] or [undefined]. *)
Definition get (v : Value) (k : string) : Value :=
  match v with
  | VObject props => get_prop props k
  | _ => VUndefined
  end.

(** [Array.isArray(v)] *)
Definition isArray (v : Value) : bool :=
  match v with VArray _ => true | _ => false end.

(** [arr[0]] *)
Definition first_element (l : list Value) : Value :=
  match l with
  | [] => VUndefined
  | x :: _ => x
  end.

(** *** Dates: [new Date(t).toISOString().slice(0, 10)] *)

Definition msPerDay : Z := 86400000.

(** Day number (days since 1970-01-01, UTC) of a time value. *)
Definition Day (t : Z) : Z := (t / msPerDay)%Z.

(** Proleptic Gregorian date of a day number. *)
Definition civil_of_day (day : Z) : Z * Z * Z :=
  (let z := day + 719468 in
   let era := z / 146097 in
   let doe := z - era * 146097 in
   let yoe := (doe - doe / 1460 + doe / 36524 - doe / 146096) / 365 in
   let doy := doe - (365 * yoe + yoe / 4 - yoe / 100) in
   let mp := (5 * doy + 2) / 153 in
   let d := doy - (153 * mp + 2) / 5 + 1 in
   let m := if mp <? 10 then mp + 3 else mp - 9 in
   let y := yoe + era * 400 + (if m <=? 2 then 1 else 0) in
   (y, m, d))%Z.

(** Decimal numeral of a non-negative integer, left-padded to [width]. *)
Definition padded (width : nat) (n : Z) : string :=
  let digits := String_of_Z n in
  zeros (width - String.length digits) ++ digits.

(** The date part of [toISOString]: years outside 0..9999 are written
    with a sign and six digits. *)
Definition iso_date_of_day (day : Z) : string :=
  let '(y, m, d) := civil_of_day day in
  let year :=
    if ((0 <=? y) && (y <=? 9999))%Z then padded 4 y
    else if (y <? 0)%Z then "-" ++ padded 6 (- y)
    else "+" ++ padded 6 y in
  year ++ "-" ++ padded 2 m ++ "-" ++ padded 2 d.

(** [.slice(0, 10)] of it *)
Definition isoDate_of_day (day : Z) : string :=
  substring 0 10 (iso_date_of_day day).

Definition toISOString_slice_0_10 (t : Z) : string :=
  isoDate_of_day (Day t).

End Js.

Import Js.

(* ================================================================== *)
(** ** Request parameters *)
(* ================================================================== *)

(** [Record<string, string | number | string[] | undefined>]; the code
    also tests for [null]. The list is in [Object.entries] order. *)
Inductive ParamValue : Type :=
| PUndefined
| PNull
| PString (s : string)
| PNumber (x : Number)
| PArray (items : list string).

Definition Params : Type := list (string * ParamValue).

(** [params.key] *)
Fixpoint param (params : Params) (key : string) : ParamValue :=
  match params with
  | [] => PUndefined
  | (k, v) :: rest => if String.eqb k key then v else param rest key
  end.

(** Truthiness, as tested by [if (v)] and [!v]. *)
Definition truthy (v : ParamValue) : bool :=
  match v with
  | PUndefined | PNull => false
  | PString s => negb (String.eqb s "")
  | PNumber x => Number_truthy x
  | PArray _ => true
  end.

(** [String(v)] *)
Definition String_ (v : ParamValue) : string :=
  match v with
  | PUndefined => "undefined"
  | PNull => "null"
  | PString s => s
  | PNumber x => Number_toString x
  | PArray items => String.concat "," items
  end.

(** [v === 'literal'] *)
Definition strict_eq_string (v : ParamValue) (lit : string) : bool :=
  match v with
  | PString s => String.eqb s lit
  | _ => false
  end.

(** The parameter is given: its key holds a value other than
    [undefined]. *)
Definition given (v : ParamValue) : Prop := v <> PUndefined.

(* ================================================================== *)
(** ** URLs, requests and responses *)
(* ================================================================== *)

(** A [URL] object: the string handed to the constructor and the query
    entries appended to [searchParams] since, in order. *)
Record URL : Type := mkURL {
  href_base : string;
  appended : list (string * string)
}.

Definition new_URL (s : string) : URL := mkURL s [].

(** [url.searchParams.append(k, v)] *)
Definition searchParams_append (u : URL) (k v : string) : URL :=
  mkURL (href_base u) (appended u ++ [(k, v)])%list.

(** The [url] text of a response: the serialisation [url.toString()] of
    a [URL] object, or a string written out by the code or the cache. *)
Inductive UrlText : Type :=
| toString (u : URL)
| literal (s : string).

Record Request : Type := mkRequest {
  resource : UrlText;
  headers : list (string * string)
}.

(** A [Response]; [status] is an integer of 16 bits, [json] is [None]
    when the body does not parse. *)
Record Response : Type := mkResponse {
  ok : bool;
  status : Z;
  statusText : string;
  json : option Value
}.

Inductive FetchOutcome : Type :=
| Rejected (message : string)
| Resolved (r : Response).

(** What the network does with a request: how it settles, and when: the
    instant by which the whole answer has arrived, its body included
    (only the order of the instants matters, to [Promise.all]). *)
Record Settlement : Type := mkSettlement {
  settled_at : nat;
  outcome : FetchOutcome
}.

(** The place of a sub-request's promise in the order in which the
    promises settle. A transport failure and a refusal by status reject
    the promise as soon as [fetch] has settled (lines 117-129); a response
    with a success status settles it only once the body has been read and
    parsed (lines 131-137), which takes further turns of the job queue. So
    of two answers that arrive at the same instant, the one refused by
    its status is reported before the one whose body does not parse. *)
Definition settles_at (s : Settlement) : nat :=
  match outcome s with
  | Rejected _ => 2 * settled_at s
  | Resolved res => if ok res then 2 * settled_at s + 1 else 2 * settled_at s
  end.

Record ApiResponse : Type := mkApiResponse {
  data : Value;
  url : UrlText
}.

Record Options : Type := mkOptions {
  cacheable : option bool
}.

(** [options?.cacheable] as a condition *)
Definition cacheable_set (options : option Options) : bool :=
  match options with
  | Some (mkOptions (Some true)) => true
  | _ => false
  end.

(* ================================================================== *)
(** ** The world around the adapter *)
(* ================================================================== *)

Record World : Type := mkWorld {
  (** [process.env.FINANCIAL_DATASETS_API_KEY], [process.env.FMP_API_KEY] *)
  env_FINANCIAL_DATASETS_API_KEY : option string;
  env_FMP_API_KEY : option string;
  (** utils/cache.js *)
  readCache : string -> Params -> option ApiResponse;
  describeRequest : string -> Params -> string;
  (** whether the [URL] constructor accepts a string *)
  URL_parses : string -> bool;
  (** the network: how it settles a request (within one call no request
      is issued twice) *)
  fetch : Request -> Settlement;
  (** the system clock, in milliseconds since the epoch: a call takes
      place at one instant, which both clock readings of the [/filings/]
      rule return *)
  now : Z
}.

(** An environment variable used as a condition: set and not empty. *)
Definition env_truthy (v : option string) : bool :=
  match v with
  | Some s => negb (String.eqb s "")
  | None => false
  end.

Definition env_value (v : option string) : string :=
  match v with
  | Some s => s
  | None => ""
  end.

(* ================================================================== *)
(** ** Effects *)
(* ================================================================== *)

Inductive Exn : Type :=
| Error (message : string)
| TypeError.

Inductive Result (A : Type) : Type :=
| Ok (a : A)
| Throw (e : Exn).
Arguments Ok {A} a.
Arguments Throw {A} e.

Inductive Event : Type :=
| EvReadCache (endpoint : string) (params : Params)
| EvWriteCache (endpoint : string) (params : Params) (d : Value) (u : UrlText)
| EvFetch (r : Request).

Definition M (A : Type) : Type := (list Event * Result A)%type.

Definition ret {A} (a : A) : M A := ([], Ok a).
Definition throw {A} (e : Exn) : M A := ([], Throw e).
Definition emit (ev : Event) : M unit := ([ev], Ok tt).

Definition bind {A B} (m : M A) (k : A -> M B) : M B :=
  match m with
  | (t, Ok a) => let '(t', r) := k a in ((t ++ t')%list, r)
  | (t, Throw e) => (t, Throw e)
  end.

Notation "x <- m ;; k" := (bind m (fun x => k))
  (at level 61, m at next level, right associativity).
Notation "m ;;; k" := (bind m (fun _ => k))
  (at level 61, right associativity).

(** A promise: the computation it stands for and the instant at which
    it settles. [await] runs it to its end. *)
Definition Promise (A : Type) : Type := (nat * M A)%type.

Definition await {A} (p : Promise A) : M A := snd p.

(** The rejection that [Promise.all] reports: that of the promise that
    settles first, the earlier array position winning a tie. *)
Fixpoint first_rejection {A} (ps : list (Promise A)) : option (nat * Exn) :=
  match ps with
  | [] => None
  | (t, (_, r)) :: rest =>
      match r, first_rejection rest with
      | Ok _, later => later
      | Throw e, None => Some (t, e)
      | Throw e, Some (t', e') =>
          if (t' <? t)%nat then Some (t', e') else Some (t, e)
      end
  end.

Fixpoint fulfilled_values {A} (ps : list (Promise A)) : list A :=
  match ps with
  | [] => []
  | (_, (_, Ok a)) :: rest => a :: fulfilled_values rest
  | (_, (_, Throw _)) :: rest => fulfilled_values rest
  end.

(** [await Promise.all(ps)]: the promises were all started when the array was
    built, so the effects of every one of them take place, in array
    order, whatever their results. *)
Definition Promise_all {A} (ps : list (Promise A)) : M (list A) :=
  (concat (map (fun p => fst (snd p)) ps),
   match first_rejection ps with
   | Some (_, e) => Throw e
   | None => Ok (fulfilled_values ps)
   end).

(* ================================================================== *)
(** ** The adapter (src/tools/finance/api.ts) *)
(* ================================================================== *)

Definition BASE_URL : string := "https://api.financialdatasets.ai".
Definition FMP_BASE_URL : string := "https://financialmodelingprep.com/stable".

(** One part of the summary line, for key [k] holding [v]. *)
Definition summarizePart (kv : string * Value) : string :=
  let '(k, v) := kv in
  match v with
  | VArray l => k ++ ": " ++ String_of_nat (List.length l) ++ " records"
  | VObject _ => k ++ ": object"
  | _ => k ++ ": " ++ typeof v
  end.

(** [summarizeData]: [Object.keys] raises a [TypeError] on [null] and
    [undefined]. *)
Definition summarizeData (d : Value) : M string :=
  match own_entries d with
  | None => throw TypeError
  | Some entries => ret (String.concat ", " (map summarizePart entries))
  end.

Section Adapter.

Variable w : World.

(** The calls into utils/cache.js and the network, as effects. *)
Definition do_readCache (endpoint : string) (params : Params)
  : M (option ApiResponse) :=
  emit (EvReadCache endpoint params) ;;; ret (readCache w endpoint params).

Definition do_writeCache (endpoint : string) (params : Params)
    (d : Value) (u : UrlText) : M unit :=
  emit (EvWriteCache endpoint params d u).

Definition do_fetch (r : Request) : M FetchOutcome :=
  emit (EvFetch r) ;;; ret (outcome (fetch w r)).

(** The loop of lines 49-57: one parameter's contribution to the query. *)
Definition append_param (u : URL) (kv : string * ParamValue) : URL :=
  let '(key, value) := kv in
  match value with
  | PUndefined | PNull => u
  | PArray items => fold_left (fun u' v => searchParams_append u' key v) items u
  | _ => searchParams_append u key (String_ value)
  end.

(** Branch 1: the Financial Datasets backend. *)
Definition callPrimary (key : string) (label endpoint : string)
    (params : Params) (options : option Options) : M ApiResponse :=
  if URL_parses w (BASE_URL ++ endpoint) then
    let url_ := fold_left append_param params (new_URL (BASE_URL ++ endpoint)) in
    fetched <- do_fetch (mkRequest (toString url_) [("x-api-key", key)]) ;;
    match fetched with
    | Rejected message =>
        throw (Error ("API request failed for " ++ label ++ ": " ++ message))
    | Resolved response =>
        if negb (ok response) then
          throw (Error ("API request failed: " ++ String_of_Z (status response)
                        ++ " " ++ statusText response))
        else
          match json response with
          | None =>
              throw (Error ("API request failed: invalid JSON ("
                            ++ String_of_Z (status response) ++ " "
                            ++ statusText response ++ ")"))
          | Some d =>
              (if cacheable_set options
               then do_writeCache endpoint params d (toString url_)
               else ret tt) ;;;
              summarizeData d ;;;
              ret (mkApiResponse d (toString url_))
          end
    end
  else throw TypeError.

Section Secondary.

(** The bindings that the helpers of branch 2 close over. *)
Variable FMP_API_KEY : string.
Variable label endpoint : string.
Variable params : Params.
Variable options : option Options.
Variable ticker : ParamValue.

(** The URL of a sub-request (lines 106-115). *)
Definition fmp_url (subEndpoint : string)
    (extraParams : option (list (string * string))) (skipSymbol : bool) : URL :=
  let u := new_URL (FMP_BASE_URL ++ subEndpoint) in
  let u := if negb skipSymbol
           then searchParams_append u "symbol" (String_ ticker) else u in
  let u := searchParams_append u "apikey" FMP_API_KEY in
  let u := if truthy (param params "limit")
           then searchParams_append u "limit" (String_ (param params "limit"))
           else u in
  let u := if strict_eq_string (param params "period") "quarterly"
           then searchParams_append u "period" "quarter" else u in
  match extraParams with
  | Some extra =>
      fold_left (fun u' kv => searchParams_append u' (fst kv) (snd kv)) extra u
  | None => u
  end.

(** What a sub-request's promise settles to, given the network's answer. *)
Definition fmp_settle (subKey : string) (u : URL) (fetched : FetchOutcome)
  : M ApiResponse :=
  match fetched with
  | Rejected message =>
      throw (Error ("FMP API request failed for " ++ label ++ ": " ++ message))
  | Resolved res =>
      if negb (ok res) then
        throw (Error ("FMP API request failed: " ++ String_of_Z (status res)))
      else
        match json res with
        | None =>
            throw (Error ("FMP API request failed: invalid JSON ("
                          ++ String_of_Z (status res) ++ " "
                          ++ statusText res ++ ")"))
        | Some d => ret (mkApiResponse (VObject [(subKey, d)]) (toString u))
        end
  end.

(** [fetchFMP]: calling it issues the request; the promise settles once
    the network has answered and the answer has been examined. *)
Definition fetchFMP (subEndpoint subKey : string)
    (extraParams : option (list (string * string))) (skipSymbol : bool)
  : Promise ApiResponse :=
  let u := fmp_url subEndpoint extraParams skipSymbol in
  let request := mkRequest (toString u) [] in
  (settles_at (fetch w request),
   fetched <- do_fetch request ;; fmp_settle subKey u fetched).

(** [returnFMP]: cache, log, return. *)
Definition returnFMP (result : ApiResponse) : M ApiResponse :=
  (if cacheable_set options
   then do_writeCache endpoint params (data result) (url result)
   else ret tt) ;;;
  summarizeData (data result) ;;;
  ret result.

(** [{ key: Array.isArray(arr) ? arr[0] : arr }] *)
Definition unwrap_first (key : string) (result : ApiResponse) : ApiResponse :=
  let arr := get (data result) key in
  mkApiResponse
    (VObject [(key, match arr with
                    | VArray l => first_element l
                    | _ => arr
                    end)])
    (url result).

(** [{ prices: raw is an object with 'historical' ? raw.historical : raw }] *)
Definition has_key (props : list (string * Value)) (k : string) : bool :=
  existsb (fun kv => String.eqb (fst kv) k) props.

Definition extract_historical (result : ApiResponse) : ApiResponse :=
  let raw := get (data result) "prices" in
  mkApiResponse
    (VObject [("prices", match raw with
                         | VObject inner =>
                             if has_key inner "historical"
                             then get_prop inner "historical" else raw
                         | _ => raw
                         end)])
    (url result).

(** The optional [from]/[to] entries forwarded from [start_date] and
    [end_date]. *)
Definition date_range : list (string * string) :=
  ((if truthy (param params "start_date")
    then [("from", String_ (param params "start_date"))] else []) ++
   (if truthy (param params "end_date")
    then [("to", String_ (param params "end_date"))] else []))%list.

(** [f.type === wanted] for an element [f] of the filings array; reading
    a property of [null] or [undefined] raises a [TypeError]. *)
Definition type_is (wanted : string) (f : Value) : Result bool :=
  match f with
  | VUndefined | VNull => Throw TypeError
  | VObject props =>
      Ok (match get_prop props "type" with
          | VString s => String.eqb s wanted
          | _ => false
          end)
  | _ => Ok false
  end.

(** [filings.filter(f => f.type === wanted)] *)
Fixpoint filter_by_type (wanted : string) (filings : list Value)
  : Result (list Value) :=
  match filings with
  | [] => Ok []
  | f :: rest =>
      match type_is wanted f with
      | Throw e => Throw e
      | Ok keep =>
          match filter_by_type wanted rest with
          | Throw e => Throw e
          | Ok kept => Ok (if keep then f :: kept else kept)
          end
      end
  end.

(** The client-side filter of the [/filings/] rule (lines 255-264). *)
Definition filter_filings (result : ApiResponse) : M ApiResponse :=
  if truthy (param params "filing_type") then
    match get (data result) "filings" with
    | VArray filings =>
        match filter_by_type (String_ (param params "filing_type")) filings with
        | Ok kept =>
            ret (mkApiResponse (VObject [("filings", VArray kept)]) (url result))
        | Throw e => throw e
        end
    | _ => ret result
    end
  else ret result.

End Secondary.
End Adapter.

(** *** Dispatch of branch 2: the chain of tests of lines 150-279, in
    order; the first test that succeeds decides. *)
Inductive Rule : Type :=
| RIncomeStatements
| RBalanceSheets
| RCashFlowStatements
| RSegmentedRevenues
| RFinancials
| RMetricsSnapshot
| RFinancialMetrics
| RCrypto
| RPricesSnapshot
| RPrices
| RCompanyFacts
| RAnalystEstimates
| RInsiderTrades
| RNews
| RFilings
| RFilingsItems
| RUnsupported.

Definition matchRule (endpoint : string) : Rule :=
  if includes endpoint "income-statements" then RIncomeStatements
  else if includes endpoint "balance-sheets" then RBalanceSheets
  else if includes endpoint "cash-flow-statements" then RCashFlowStatements
  else if includes endpoint "/segmented-revenues/" then RSegmentedRevenues
  else if String.eqb endpoint "/financials/" then RFinancials
  else if includes endpoint "/financial-metrics/snapshot/" then RMetricsSnapshot
  else if includes endpoint "/financial-metrics/" then RFinancialMetrics
  else if includes endpoint "/crypto/" then RCrypto
  else if includes endpoint "/prices/snapshot" then RPricesSnapshot
  else if String.eqb endpoint "/prices/" then RPrices
  else if String.eqb endpoint "/company/facts" then RCompanyFacts
  else if includes endpoint "/analyst-estimates/" then RAnalystEstimates
  else if includes endpoint "/insider-trades/" then RInsiderTrades
  else if String.eqb endpoint "/news/" then RNews
  else if String.eqb endpoint "/filings/" then RFilings
  else if includes endpoint "/filings/items/" then RFilingsItems
  else RUnsupported.

Definition crypto_msg : string :=
  "Cryptocurrency data requires a Financial Datasets API key (FINANCIAL_DATASETS_API_KEY). "
  ++ "The FMP API adapter does not support crypto endpoints.".

Definition filings_items_msg : string :=
  "SEC filing content retrieval requires a Financial Datasets API key (FINANCIAL_DATASETS_API_KEY). "
  ++ "The FMP API only supports filing metadata via get_filings, not full-text content.".

Definition ticker_msg : string := "Ticker is required for FMP API".

Definition no_key_msg : string :=
  "No valid financial API key found (requires FINANCIAL_DATASETS_API_KEY or FMP_API_KEY)".

Definition aggregated_url : UrlText := literal (FMP_BASE_URL ++ "/(aggregated)").

Section Call.

Variable w : World.

(** The aggregated [/financials/] rule (lines 162-174). Destructuring an
    array of fewer than three results would bind [undefined], whose
    [.data] raises a [TypeError]. *)
Definition callFinancials (FMP_API_KEY label endpoint : string)
    (params : Params) (options : option Options) (ticker : ParamValue)
  : M ApiResponse :=
  let sub := fetchFMP w FMP_API_KEY label params ticker in
  results <- Promise_all
               [ sub "/income-statement" "income_statements" None false;
                 sub "/balance-sheet-statement" "balance_sheets" None false;
                 sub "/cash-flow-statement" "cash_flow_statements" None false ] ;;
  match results with
  | [income; balance; cash] =>
      let d := VObject [("financials",
                 VObject (spread (spread (spread [] (data income))
                                         (data balance)) (data cash)))] in
      (if cacheable_set options
       then do_writeCache endpoint params d aggregated_url
       else ret tt) ;;;
      summarizeData d ;;;
      ret (mkApiResponse d aggregated_url)
  | _ => throw TypeError
  end.

(** Branch 2: the FMP backend. *)
Definition callSecondary (FMP_API_KEY label endpoint : string)
    (params : Params) (options : option Options) : M ApiResponse :=
  let ticker := param params "ticker" in
  if negb (truthy ticker) then throw (Error ticker_msg)
  else
    let fetchFMP_ := fetchFMP w FMP_API_KEY label params ticker in
    let returnFMP_ := returnFMP endpoint params options in
    match matchRule endpoint with
    | RIncomeStatements =>
        r <- await (fetchFMP_ "/income-statement" "income_statements" None false) ;;
        returnFMP_ r
    | RBalanceSheets =>
        r <- await (fetchFMP_ "/balance-sheet-statement" "balance_sheets" None false) ;;
        returnFMP_ r
    | RCashFlowStatements =>
        r <- await (fetchFMP_ "/cash-flow-statement" "cash_flow_statements" None false) ;;
        returnFMP_ r
    | RSegmentedRevenues =>
        r <- await (fetchFMP_ "/revenue-product-segmentation" "segmented_revenues"
                      None false) ;;
        returnFMP_ r
    | RFinancials =>
        callFinancials FMP_API_KEY label endpoint params options ticker
    | RMetricsSnapshot =>
        result <- await (fetchFMP_ "/ratios-ttm" "snapshot" None false) ;;
        returnFMP_ (unwrap_first "snapshot" result)
    | RFinancialMetrics =>
        r <- await (fetchFMP_ "/ratios" "financial_metrics" None false) ;;
        returnFMP_ r
    | RCrypto => throw (Error crypto_msg)
    | RPricesSnapshot =>
        result <- await (fetchFMP_ "/quote" "snapshot" None false) ;;
        returnFMP_ (unwrap_first "snapshot" result)
    | RPrices =>
        result <- await (fetchFMP_ "/historical-price-eod/full" "prices"
                           (Some (date_range params)) false) ;;
        returnFMP_ (extract_historical result)
    | RCompanyFacts =>
        result <- await (fetchFMP_ "/profile" "company_facts" None false) ;;
        returnFMP_ (unwrap_first "company_facts" result)
    | RAnalystEstimates =>
        r <- await (fetchFMP_ "/analyst-estimates" "analyst_estimates" None false) ;;
        returnFMP_ r
    | RInsiderTrades =>
        r <- await (fetchFMP_ "/insider-trading/search" "insider_trades" None false) ;;
        returnFMP_ r
    | RNews =>
        r <- await (fetchFMP_ "/news/stock" "news"
                      (Some (("symbols", String_ ticker) :: date_range params)) true) ;;
        returnFMP_ r
    | RFilings =>
        let today := toISOString_slice_0_10 (now w) in
        let oneYearAgo := toISOString_slice_0_10 (now w - 365 * 86400000) in
        result <- await (fetchFMP_ "/sec-filings-search/symbol" "filings"
                           (Some [("from", oneYearAgo); ("to", today)]) false) ;;
        filtered <- filter_filings params result ;;
        returnFMP_ filtered
    | RFilingsItems => throw (Error filings_items_msg)
    | RUnsupported =>
        throw (Error ("Endpoint " ++ endpoint ++ " not supported by FMP adapter yet"))
    end.

(** [callApi] *)
Definition callApi (endpoint : string) (params : Params)
    (options : option Options) : M ApiResponse :=
  let label := describeRequest w endpoint params in
  cached <- (if cacheable_set options
             then do_readCache w endpoint params
             else ret None) ;;
  match cached with
  | Some hit => summarizeData (data hit) ;;; ret hit
  | None =>
      if env_truthy (env_FINANCIAL_DATASETS_API_KEY w) then
        callPrimary w (env_value (env_FINANCIAL_DATASETS_API_KEY w))
          label endpoint params options
      else if env_truthy (env_FMP_API_KEY w) then
        callSecondary (env_value (env_FMP_API_KEY w)) label endpoint params options
      else throw (Error no_key_msg)
  end.

End Call.

(* ================================================================== *)
(** ** The filings tools (src/tools/finance/filings.ts) *)
(* ================================================================== *)

(** [{ name, title }] *)
Definition filing_item (name title : string) : Value :=
  VObject [("name", VString name); ("title", VString title)].

Definition FALLBACK_ITEM_TYPES : Value :=
  VObject
    [("10-K", VArray [
       filing_item "Item-1" "Business";
       filing_item "Item-1A" "Risk Factors";
       filing_item "Item-1B" "Unresolved Staff Comments";
       filing_item "Item-1C" "Cybersecurity";
       filing_item "Item-2" "Properties";
       filing_item "Item-3" "Legal Proceedings";
       filing_item "Item-4" "Mine Safety Disclosures";
       filing_item "Item-5" "Market for Common Equity";
       filing_item "Item-6" "Reserved";
       filing_item "Item-7" "Management's Discussion and Analysis (MD&A)";
       filing_item "Item-7A" "Quantitative and Qualitative Disclosures About Market Risk";
       filing_item "Item-8" "Financial Statements and Supplementary Data";
       filing_item "Item-9" "Changes in and Disagreements with Accountants";
       filing_item "Item-9A" "Controls and Procedures";
       filing_item "Item-9B" "Other Information";
       filing_item "Item-10" "Directors and Corporate Governance";
       filing_item "Item-11" "Executive Compensation";
       filing_item "Item-12" "Security Ownership";
       filing_item "Item-13" "Certain Relationships and Related Transactions";
       filing_item "Item-14" "Principal Accountant Fees and Services";
       filing_item "Item-15" "Exhibits and Financial Statement Schedules" ]);
     ("10-Q", VArray [
       filing_item "Part-1,Item-1" "Financial Statements";
       filing_item "Part-1,Item-2" "Management's Discussion and Analysis (MD&A)";
       filing_item "Part-1,Item-3" "Quantitative and Qualitative Disclosures About Market Risk";
       filing_item "Part-1,Item-4" "Controls and Procedures";
       filing_item "Part-2,Item-1" "Legal Proceedings";
       filing_item "Part-2,Item-1A" "Risk Factors";
       filing_item "Part-2,Item-2" "Unregistered Sales of Equity Securities";
       filing_item "Part-2,Item-3" "Defaults Upon Senior Securities";
       filing_item "Part-2,Item-4" "Mine Safety Disclosures";
       filing_item "Part-2,Item-5" "Other Information";
       filing_item "Part-2,Item-6" "Exhibits" ])].

Definition ITEM_TYPES_URL : string :=
  "https://api.financialdatasets.ai/filings/items/types/".

(** [getFilingItemTypes]: whatever goes wrong inside the [try] block
    ends in the static table. *)
Definition getFilingItemTypes (w : World) : M Value :=
  fetched <- do_fetch w (mkRequest (literal ITEM_TYPES_URL) []) ;;
  match fetched with
  | Rejected _ => ret FALLBACK_ITEM_TYPES
  | Resolved response =>
      if negb (ok response) then ret FALLBACK_ITEM_TYPES
      else
        match json response with
        | Some d => ret d
        | None => ret FALLBACK_ITEM_TYPES
        end
  end.

(** [z.enum(['10-K', '10-Q', '8-K'])] *)
Inductive FilingType : Type :=
| Form10K
| Form10Q
| Form8K.

Definition FilingType_text (f : FilingType) : string :=
  match f with
  | Form10K => "10-K"
  | Form10Q => "10-Q"
  | Form8K => "8-K"
  end.

(** The inputs of the tools, after validation against their schemas
    (the default of [limit] is filled in by then). *)
Record FilingsInput : Type := mkFilingsInput {
  filings_ticker : string;
  filings_filing_type : option FilingType;
  filings_limit : Number
}.

Record FilingItemsInput : Type := mkFilingItemsInput {
  items_ticker : string;
  items_accession_number : string;
  items_items : option (list string)
}.

Record Filing8KItemsInput : Type := mkFiling8KItemsInput {
  items8K_ticker : string;
  items8K_accession_number : string
}.

(** Truthiness of a value, as tested by [a || b]. *)
Definition value_truthy (v : Value) : bool :=
  match v with
  | VUndefined | VNull => false
  | VBool b => b
  | VNumber x => Number_truthy x
  | VString s => negb (String.eqb s "")
  | VArray _ | VObject _ => true
  end.

(** [d.k] on any value: reading a property of [null] or [undefined]
    raises a [TypeError]. *)
Definition read_prop (d : Value) (k : string) : M Value :=
  match d with
  | VUndefined | VNull => throw TypeError
  | _ => ret (get d k)
  end.

(** An optional field as a parameter value. *)
Definition optional {A} (f : A -> ParamValue) (o : option A) : ParamValue :=
  match o with
  | Some a => f a
  | None => PUndefined
  end.

Section Tools.

Variable w : World.
(** [String.prototype.toUpperCase] *)
Variable toUpperCase : string -> string.
(** [formatToolResult] of ../types.js, and the type of its results *)
Variable ToolResult : Type.
Variable formatToolResult : Value -> list UrlText -> ToolResult.

Definition getFilings_params (input : FilingsInput) : Params :=
  [("ticker", PString (filings_ticker input));
   ("limit", PNumber (filings_limit input));
   ("filing_type",
    optional (fun f => PString (FilingType_text f)) (filings_filing_type input))].

(** [getFilings.func] *)
Definition getFilings (input : FilingsInput) : M ToolResult :=
  response <- callApi w "/filings/" (getFilings_params input) None ;;
  filings <- read_prop (data response) "filings" ;;
  ret (formatToolResult (if value_truthy filings then filings else VArray [])
                        [url response]).

Definition filingItems_params (form : string) (input : FilingItemsInput) : Params :=
  [("ticker", PString (toUpperCase (items_ticker input)));
   ("filing_type", PString form);
   ("accession_number", PString (items_accession_number input));
   ("item", optional PArray (items_items input))].

Definition filing8KItems_params (input : Filing8KItemsInput) : Params :=
  [("ticker", PString (toUpperCase (items8K_ticker input)));
   ("filing_type", PString "8-K");
   ("accession_number", PString (items8K_accession_number input))].

Definition cacheable_true : option Options := Some (mkOptions (Some true)).

(** [get10KFilingItems.func] *)
Definition get10KFilingItems (input : FilingItemsInput) : M ToolResult :=
  response <- callApi w "/filings/items/" (filingItems_params "10-K" input)
                cacheable_true ;;
  ret (formatToolResult (data response) [url response]).

(** [get10QFilingItems.func] *)
Definition get10QFilingItems (input : FilingItemsInput) : M ToolResult :=
  response <- callApi w "/filings/items/" (filingItems_params "10-Q" input)
                cacheable_true ;;
  ret (formatToolResult (data response) [url response]).

(** [get8KFilingItems.func] *)
Definition get8KFilingItems (input : Filing8KItemsInput) : M ToolResult :=
  response <- callApi w "/filings/items/" (filing8KItems_params input)
                cacheable_true ;;
  ret (formatToolResult (data response) [url response]).

End Tools.

(* ================================================================== *)
(** ** Vocabulary of the properties *)
(* ================================================================== *)

(** The network requests of a trace, in the order of issue. *)
Definition requests (t : list Event) : list Request :=
  flat_map (fun ev => match ev with EvFetch r => [r] | _ => [] end) t.

Definition network_calls (t : list Event) : nat := List.length (requests t).

Definition cache_reads (t : list Event) : nat :=
  List.length (filter (fun ev => match ev with EvReadCache _ _ => true | _ => false end) t).

Definition cache_writes (t : list Event) : nat :=
  List.length (filter (fun ev => match ev with EvWriteCache _ _ _ _ => true | _ => false end) t).

(** [url.searchParams.getAll(k)] restricted to the appended entries. *)
Definition getAll (u : URL) (k : string) : list string :=
  map snd (filter (fun kv => String.eqb (fst kv) k) (appended u)).

(** The cached response that answers the call, if there is one: the
    cache is consulted only for a cacheable call. *)
Definition from_cache (w : World) (endpoint : string) (params : Params)
    (options : option Options) : option ApiResponse :=
  if cacheable_set options then readCache w endpoint params else None.

(** A credential is set: its variable holds a non-empty string. *)
Definition primary_set (w : World) : Prop :=
  env_truthy (env_FINANCIAL_DATASETS_API_KEY w) = true.

Definition secondary_set (w : World) : Prop :=
  env_truthy (env_FMP_API_KEY w) = true.

Definition only_secondary_set (w : World) : Prop :=
  env_truthy (env_FINANCIAL_DATASETS_API_KEY w) = false /\ secondary_set w.

Definition no_credential_set (w : World) : Prop :=
  env_truthy (env_FINANCIAL_DATASETS_API_KEY w) = false /\
  env_truthy (env_FMP_API_KEY w) = false.

(** The error kinds of the specification, as the exceptions the code
    raises for them. *)
Definition NoCredential : Exn := Error no_key_msg.
Definition MissingTicker : Exn := Error ticker_msg.
Definition UnsupportedByBackend (reason : string) : Exn := Error reason.

(** The parsed body of a successful answer to a request; [None] when the
    request fails (transport failure, non-success status, unparseable
    body). *)
Definition answer (w : World) (r : Request) : option Value :=
  match outcome (fetch w r) with
  | Resolved res => if ok res then json res else None
  | Rejected _ => None
  end.

(** The same world with the FMP credential removed. *)
Definition without_FMP_key (w : World) : World :=
  mkWorld (env_FINANCIAL_DATASETS_API_KEY w) None (readCache w)
          (describeRequest w) (URL_parses w) (fetch w) (now w).

(** The query of a Primary request in the specification's words: every
    parameter that is neither [undefined] nor [null] gives a query entry
    under its key, an array one entry per element, in order. *)
Definition query_entry (kv : string * ParamValue) : list (string * string) :=
  match snd kv with
  | PUndefined | PNull => []
  | PArray items => map (fun item => (fst kv, item)) items
  | v => [(fst kv, String_ v)]
  end.

Definition query_entries (params : Params) : list (string * string) :=
  flat_map query_entry params.

(** The request of a Primary call, in the specification's words: the
    base address followed by the endpoint, the query above, and the
    credential in a header. *)
Definition primary_request (w : World) (endpoint : string) (params : Params)
  : Request :=
  mkRequest (toString (mkURL (BASE_URL ++ endpoint) (query_entries params)))
            [("x-api-key", env_value (env_FINANCIAL_DATASETS_API_KEY w))].

(** The cache read that opens a cacheable call. *)
Definition cache_probe (endpoint : string) (params : Params)
    (options : option Options) : list Event :=
  if cacheable_set options then [EvReadCache endpoint params] else [].

(** What [callApi] does once the cache has not answered. *)
Definition backend_call (w : World) (endpoint : string) (params : Params)
    (options : option Options) : M ApiResponse :=
  let label := describeRequest w endpoint params in
  if env_truthy (env_FINANCIAL_DATASETS_API_KEY w) then
    callPrimary w (env_value (env_FINANCIAL_DATASETS_API_KEY w))
      label endpoint params options
  else if env_truthy (env_FMP_API_KEY w) then
    callSecondary w (env_value (env_FMP_API_KEY w)) label endpoint params options
  else throw (Error no_key_msg).

(** The request of an FMP sub-request. *)
Definition sub_request (key : string) (params : Params) (ticker : ParamValue)
    (subEndpoint : string) (extraParams : option (list (string * string)))
    (skipSymbol : bool) : Request :=
  mkRequest (toString (fmp_url key params ticker subEndpoint extraParams skipSymbol)) [].

(** Every request that a computation issues satisfies [P]. *)
Definition issues {A} (P : Request -> Prop) (m : M A) : Prop :=
  forall req, In req (requests (fst m)) -> P req.

(** What a sub-request carries for [limit] and [period]: the string form
    of a truthy [limit], ["quarter"] for the period ["quarterly"], and
    nothing else under these two keys. *)
Definition carries_limit_and_period (params : Params) (req : Request) : Prop :=
  exists u, resource req = toString u /\
    getAll u "limit"
    = (if truthy (param params "limit")
       then [String_ (param params "limit")] else []) /\
    getAll u "period"
    = (if strict_eq_string (param params "period") "quarterly"
       then ["quarter"] else []).

(** An earlier rule of the dispatch chain claims the endpoint before the
    crypto rule is reached. *)
Definition claimed_before_crypto (endpoint : string) : bool :=
  includes endpoint "income-statements"
  || includes endpoint "balance-sheets"
  || includes endpoint "cash-flow-statements"
  || includes endpoint "/segmented-revenues/"
  || includes endpoint "/financial-metrics/".

(** The element's [type] field is the string [wanted]. *)
Definition has_type (wanted : string) (f : Value) : bool :=
  match get f "type" with
  | VString s => String.eqb s wanted
  | _ => false
  end.

Definition nullish (v : Value) : bool :=
  match v with
  | VUndefined | VNull => true
  | _ => false
  end.


(** *** The runs of a call *)

(** The cache write that closes a cacheable call. *)
Definition write_back (endpoint : string) (params : Params)
    (options : option Options) (resp : ApiResponse) : list Event :=
  if cacheable_set options
  then [EvWriteCache endpoint params (data resp) (url resp)] else [].

(** The exceptions of a request that the network does not answer
    successfully, on either backend. *)
Definition primary_failure (label : string) (o : FetchOutcome) : Exn :=
  match o with
  | Rejected message =>
      Error ("API request failed for " ++ label ++ ": " ++ message)
  | Resolved res =>
      if ok res then
        Error ("API request failed: invalid JSON (" ++ String_of_Z (status res)
               ++ " " ++ statusText res ++ ")")
      else
        Error ("API request failed: " ++ String_of_Z (status res)
               ++ " " ++ statusText res)
  end.

Definition fmp_failure (label : string) (o : FetchOutcome) : Exn :=
  match o with
  | Rejected message =>
      Error ("FMP API request failed for " ++ label ++ ": " ++ message)
  | Resolved res =>
      if ok res then
        Error ("FMP API request failed: invalid JSON (" ++ String_of_Z (status res)
               ++ " " ++ statusText res ++ ")")
      else
        Error ("FMP API request failed: " ++ String_of_Z (status res))
  end.

(** The message with which the FMP branch turns an endpoint down. *)
Definition unsupported_msg (endpoint : string) : option string :=
  match matchRule endpoint with
  | RCrypto => Some crypto_msg
  | RFilingsItems => Some filings_items_msg
  | RUnsupported =>
      Some ("Endpoint " ++ endpoint ++ " not supported by FMP adapter yet")
  | _ => None
  end.

(** The key under which a rule of the FMP branch returns its data. *)
Definition result_key (rule : Rule) : option string :=
  match rule with
  | RIncomeStatements => Some "income_statements"
  | RBalanceSheets => Some "balance_sheets"
  | RCashFlowStatements => Some "cash_flow_statements"
  | RSegmentedRevenues => Some "segmented_revenues"
  | RFinancials => Some "financials"
  | RMetricsSnapshot => Some "snapshot"
  | RFinancialMetrics => Some "financial_metrics"
  | RPricesSnapshot => Some "snapshot"
  | RPrices => Some "prices"
  | RCompanyFacts => Some "company_facts"
  | RAnalystEstimates => Some "analyst_estimates"
  | RInsiderTrades => Some "insider_trades"
  | RNews => Some "news"
  | RFilings => Some "filings"
  | RCrypto | RFilingsItems | RUnsupported => None
  end.

(** The number of sub-requests of an endpoint on the FMP branch. *)
Definition fan (endpoint : string) : nat :=
  match matchRule endpoint with
  | RFinancials => 3
  | _ => 1
  end.

(** [reqs] are sub-requests of the FMP branch, as many as the endpoint
    asks for. *)
Definition fmp_requests (w : World) (endpoint : string) (params : Params)
    (reqs : list Request) : Prop :=
  List.length reqs = fan endpoint /\
  Forall (fun req => exists sub extra skip,
            req = sub_request (env_value (env_FMP_API_KEY w)) params
                    (param params "ticker") sub extra skip) reqs.

(** A call that ends before any request. *)
Inductive Refusal (w : World) (endpoint : string) (params : Params)
  : Exn -> Prop :=
| refuse_no_key :
    no_credential_set w -> Refusal w endpoint params NoCredential
| refuse_bad_url :
    primary_set w -> URL_parses w (BASE_URL ++ endpoint) = false ->
    Refusal w endpoint params TypeError
| refuse_no_ticker :
    only_secondary_set w -> truthy (param params "ticker") = false ->
    Refusal w endpoint params MissingTicker
| refuse_unsupported (msg : string) :
    only_secondary_set w -> truthy (param params "ticker") = true ->
    unsupported_msg endpoint = Some msg ->
    Refusal w endpoint params (Error msg).

(** A call that fails after its requests. *)
Inductive Failure (w : World) (endpoint : string) (params : Params)
  : list Request -> Exn -> Prop :=
| fail_primary :
    primary_set w ->
    answer w (primary_request w endpoint params) = None ->
    Failure w endpoint params [primary_request w endpoint params]
      (primary_failure (describeRequest w endpoint params)
         (outcome (fetch w (primary_request w endpoint params))))
| fail_fmp (reqs : list Request) (req : Request) :
    only_secondary_set w ->
    fmp_requests w endpoint params reqs ->
    In req reqs -> answer w req = None ->
    Failure w endpoint params reqs
      (fmp_failure (describeRequest w endpoint params) (outcome (fetch w req)))
| fail_filter (req : Request) (raw : list Value) :
    only_secondary_set w ->
    fmp_requests w endpoint params [req] ->
    matchRule endpoint = RFilings ->
    truthy (param params "filing_type") = true ->
    answer w req = Some (VArray raw) ->
    existsb nullish raw = true ->
    Failure w endpoint params [req] TypeError.

(** A call that returns what a backend answered. *)
Inductive Success (w : World) (endpoint : string) (params : Params)
  : list Request -> ApiResponse -> Prop :=
| ok_primary (d : Value) :
    primary_set w ->
    answer w (primary_request w endpoint params) = Some d ->
    nullish d = false ->
    Success w endpoint params [primary_request w endpoint params]
      (mkApiResponse d (resource (primary_request w endpoint params)))
| ok_fmp (reqs : list Request) (key : string) (v : Value) (u : UrlText) :
    only_secondary_set w ->
    fmp_requests w endpoint params reqs ->
    (forall req, In req reqs -> answer w req <> None) ->
    result_key (matchRule endpoint) = Some key ->
    match matchRule endpoint with
    | RFinancials => u = aggregated_url
    | _ => map resource reqs = [u]
    end ->
    Success w endpoint params reqs (mkApiResponse (VObject [(key, v)]) u).

(** The runs of [callApi]: the trace and the result of every call have
    one of these six forms. *)
Inductive CallRun (w : World) (endpoint : string) (params : Params)
    (options : option Options) : list Event -> Result ApiResponse -> Prop :=
| run_hit (hit : ApiResponse) :
    from_cache w endpoint params options = Some hit ->
    nullish (data hit) = false ->
    CallRun w endpoint params options [EvReadCache endpoint params] (Ok hit)
| run_hit_null (hit : ApiResponse) :
    from_cache w endpoint params options = Some hit ->
    nullish (data hit) = true ->
    CallRun w endpoint params options [EvReadCache endpoint params] (Throw TypeError)
| run_refused (e : Exn) :
    from_cache w endpoint params options = None ->
    Refusal w endpoint params e ->
    CallRun w endpoint params options
      (cache_probe endpoint params options) (Throw e)
| run_failed (reqs : list Request) (e : Exn) :
    from_cache w endpoint params options = None ->
    Failure w endpoint params reqs e ->
    CallRun w endpoint params options
      (cache_probe endpoint params options ++ map EvFetch reqs)%list (Throw e)
| run_returned (reqs : list Request) (resp : ApiResponse) :
    from_cache w endpoint params options = None ->
    Success w endpoint params reqs resp ->
    CallRun w endpoint params options
      (cache_probe endpoint params options ++ map EvFetch reqs
       ++ write_back endpoint params options resp)%list (Ok resp)
| run_null_body (d : Value) :
    from_cache w endpoint params options = None ->
    primary_set w ->
    answer w (primary_request w endpoint params) = Some d ->
    nullish d = true ->
    CallRun w endpoint params options
      (cache_probe endpoint params options
       ++ [EvFetch (primary_request w endpoint params)]
       ++ write_back endpoint params options
            (mkApiResponse d (resource (primary_request w endpoint params))))%list
      (Throw TypeError).

(** The rules that return the backend's answer as it is. *)
Definition plain_rule (rule : Rule) : bool :=
  match rule with
  | RIncomeStatements | RBalanceSheets | RCashFlowStatements
  | RSegmentedRevenues | RFinancialMetrics | RAnalystEstimates
  | RInsiderTrades | RNews => true
  | _ => false
  end.

(** How the FMP branch presents itself to its backend: no header, the
    address under the FMP base, the credential as the one [apikey]
    entry. *)
Definition fmp_shaped (w : World) (req : Request) : Prop :=
  headers req = [] /\
  exists u, resource req = toString u /\
    prefix FMP_BASE_URL (href_base u) = true /\
    getAll u "apikey" = [env_value (env_FMP_API_KEY w)].


(** The sub-requests of each rule of the FMP branch, as a table. *)
Definition rule_requests (w : World) (params : Params) (rule : Rule)
  : list Request :=
  let sub := sub_request (env_value (env_FMP_API_KEY w)) params
               (param params "ticker") in
  match rule with
  | RIncomeStatements => [sub "/income-statement" None false]
  | RBalanceSheets => [sub "/balance-sheet-statement" None false]
  | RCashFlowStatements => [sub "/cash-flow-statement" None false]
  | RSegmentedRevenues => [sub "/revenue-product-segmentation" None false]
  | RFinancials =>
      [sub "/income-statement" None false;
       sub "/balance-sheet-statement" None false;
       sub "/cash-flow-statement" None false]
  | RMetricsSnapshot => [sub "/ratios-ttm" None false]
  | RFinancialMetrics => [sub "/ratios" None false]
  | RPricesSnapshot => [sub "/quote" None false]
  | RPrices => [sub "/historical-price-eod/full" (Some (date_range params)) false]
  | RCompanyFacts => [sub "/profile" None false]
  | RAnalystEstimates => [sub "/analyst-estimates" None false]
  | RInsiderTrades => [sub "/insider-trading/search" None false]
  | RNews =>
      [sub "/news/stock"
         (Some (("symbols", String_ (param params "ticker")) :: date_range params))
         true]
  | RFilings =>
      [sub "/sec-filings-search/symbol"
         (Some [("from", toISOString_slice_0_10 (now w - 365 * 86400000));
                ("to", toISOString_slice_0_10 (now w))]) false]
  | RCrypto | RFilingsItems | RUnsupported => []
  end.

(** How a request names the company: under [symbol], or, for the news,
    under [symbols]. *)
Definition names_ticker (params : Params) (rule : Rule) (req : Request) : Prop :=
  exists u, resource req = toString u /\
    match rule with
    | RNews =>
        getAll u "symbol" = [] /\
        getAll u "symbols" = [String_ (param params "ticker")]
    | _ =>
        getAll u "symbol" = [String_ (param params "ticker")] /\
        getAll u "symbols" = []
    end.


Definition is_object (v : Value) : bool :=
  match v with VObject _ => true | _ => false end.

(** *** Sample worlds *)

Definition sample_label (endpoint : string) (params : Params) : string := endpoint.

Definition no_cache (endpoint : string) (params : Params) : option ApiResponse := None.

Definition offline (r : Request) : Settlement := mkSettlement 0 (Rejected "offline").

Definition json_ok (d : Value) : Settlement :=
  mkSettlement 0 (Resolved (mkResponse true 200 "OK" (Some d))).

(** 2026-11-01T12:00:00Z *)
Definition sample_now : Z := 1793534400000.

Definition aapl : Params := [("ticker", PString "AAPL")].

Definition cache_on : option Options := Some (mkOptions (Some true)).

Definition stored : ApiResponse :=
  mkApiResponse (VObject [("income_statements", VArray [])])
                (literal "https://api.financialdatasets.ai/financials/income-statements/").

(** No credential at all, and a cache that holds a response. *)
Definition world_no_key_cached : World :=
  mkWorld None None (fun _ _ => Some stored) sample_label (fun _ => true)
          offline sample_now.

Definition world_no_key : World :=
  mkWorld None None no_cache sample_label (fun _ => true) offline sample_now.

(** Only the FMP credential, and a cache that holds a response. *)
Definition world_fmp_cached : World :=
  mkWorld None (Some "fmp-key") (fun _ _ => Some stored) sample_label
          (fun _ => true) offline sample_now.

Definition world_fmp_offline : World :=
  mkWorld None (Some "fmp-key") no_cache sample_label (fun _ => true)
          offline sample_now.

Definition income_body : Value :=
  VObject [("income_statements", VArray [VObject [("revenue", VNumber (Number_of_Z 200000))]])].

(** Both credentials, a network that answers every request. *)
Definition world_both : World :=
  mkWorld (Some "fd-key") (Some "fmp-key") no_cache sample_label
          (fun _ => true) (fun _ => json_ok income_body) sample_now.

Definition world_primary : World := without_FMP_key world_both.

Definition items_params : Params :=
  [("ticker", PString "AAPL"); ("accession_number", PUndefined);
   ("item", PArray ["Item-1"; "Item-7"]); ("limit", PNumber (Number_of_Z 2))].

(** Only the FMP credential, a network that answers every request
    with the same body. *)
Definition world_fmp (body : Value) : World :=
  mkWorld None (Some "fmp-key") no_cache sample_label (fun _ => true)
          (fun _ => json_ok body) sample_now.

Definition quote_body : Value :=
  VArray [VObject [("symbol", VString "AAPL");
                   ("price", VNumber (Number_of_Z 185))]].

Definition btc : Params := [("ticker", PString "BTC-USD")].

Definition filing (type : string) : Value :=
  VObject [("symbol", VString "AAPL"); ("type", VString type)].

Definition filings_body : Value :=
  VArray [filing "10-K"; filing "8-K"; filing "10-Q"; filing "10-K"].

Definition filings_params : Params :=
  [("ticker", PString "AAPL"); ("filing_type", PString "10-K");
   ("limit", PNumber (Number_of_Z 5))].


Definition income_rows : Value := VArray [VObject [("revenue", VNumber (Number_of_Z 100000))]].
Definition balance_rows : Value := VArray [VObject [("totalAssets", VNumber (Number_of_Z 500000))]].
Definition cash_rows : Value := VArray [VObject [("operatingCashFlow", VNumber (Number_of_Z 80000))]].

Definition path_is (r : Request) (path : string) : bool :=
  match resource r with
  | toString u => String.eqb (href_base u) (FMP_BASE_URL ++ path)
  | literal _ => false
  end.

(** A network that serves the three statements. *)
Definition statements_network (r : Request) : Settlement :=
  if path_is r "/income-statement" then json_ok income_rows
  else if path_is r "/balance-sheet-statement" then json_ok balance_rows
  else if path_is r "/cash-flow-statement" then json_ok cash_rows
  else offline r.

(** The same, except that the balance sheet is refused. *)
Definition refusing_network (r : Request) : Settlement :=
  if path_is r "/balance-sheet-statement"
  then mkSettlement 0 (Resolved (mkResponse false 401 "Unauthorized" None))
  else statements_network r.

(** The same again, except that the income statement arrives, at the
    same instant, with a success status and a body that does not
    parse. *)
Definition garbling_network (r : Request) : Settlement :=
  if path_is r "/income-statement"
  then mkSettlement 0 (Resolved (mkResponse true 200 "OK" None))
  else refusing_network r.

Definition world_statements (net : Request -> Settlement) : World :=
  mkWorld None (Some "fmp-key") no_cache sample_label (fun _ => true)
          net sample_now.

Definition stored_financials : ApiResponse :=
  mkApiResponse
    (VObject [("financials",
               VObject [("income_statements", income_rows);
                        ("balance_sheets", balance_rows);
                        ("cash_flow_statements", cash_rows)])])
    aggregated_url.

(** Only the FMP credential, and a cache that holds the aggregated
    statements from an earlier call. *)
Definition world_fmp_financials_cached : World :=
  mkWorld None (Some "fmp-key") (fun _ _ => Some stored_financials) sample_label
          (fun _ => true) statements_network sample_now.

Definition fmp (path : string) (query : list (string * string)) : UrlText :=
  toString (mkURL (FMP_BASE_URL ++ path) query).

Definition historical_body : Value :=
  VObject [("symbol", VString "AAPL");
           ("historical", VArray [VObject [("date", VString "2024-12-31")]])].

(** Only the Primary credential, over a given network. *)
Definition world_fd (net : Request -> Settlement) : World :=
  mkWorld (Some "fd-key") None no_cache sample_label (fun _ => true)
          net sample_now.

Definition http_error (code : Z) (text : string) (r : Request) : Settlement :=
  mkSettlement 0 (Resolved (mkResponse false code text None)).

(** Samples for the tools: an upper-casing of the ASCII letters, and a
    formatter that keeps its two arguments. *)
Definition upper_char (c : ascii) : ascii :=
  let n := nat_of_ascii c in
  if ((97 <=? n) && (n <=? 122))%nat then ascii_of_nat (n - 32) else c.

Fixpoint upper_ascii (s : string) : string :=
  match s with
  | EmptyString => EmptyString
  | String c rest => String (upper_char c) (upper_ascii rest)
  end.

Definition keep_both (d : Value) (urls : list UrlText) : Value * list UrlText :=
  (d, urls).

Definition sample_10K_input : FilingItemsInput :=
  mkFilingItemsInput "aapl" "0000320193-24-000123" (Some ["Item-1"; "Item-7"]).

Definition sample_filings_input : FilingsInput :=
  mkFilingsInput "AAPL" (Some Form10K) (Number_of_Z 10).

(* ================================================================== *)
(** * Properties *)
(* ================================================================== *)

(** ** Generalities on the monad and on traces *)

Lemma requests_app (t1 t2 : list Event) :
  requests (t1 ++ t2) = (requests t1 ++ requests t2)%list.
Proof. unfold requests. now rewrite flat_map_app. Qed.

Lemma summarizeData_trace (d : Value) : fst (summarizeData d) = [].
Proof. unfold summarizeData. now destruct (own_entries d). Qed.

Lemma summarizeData_object (props : list (string * Value)) :
  exists line, summarizeData (VObject props) = ([], Ok line).
Proof. unfold summarizeData, ret; simpl. eauto. Qed.

(** [callApi] is a look into the cache followed, on a miss, by the call
    of a backend. *)
Lemma callApi_miss (w : World) (endpoint : string) (params : Params)
    (options : option Options) :
  from_cache w endpoint params options = None ->
  callApi w endpoint params options
  = ((cache_probe endpoint params options
      ++ fst (backend_call w endpoint params options))%list,
     snd (backend_call w endpoint params options)).
Proof.
  unfold from_cache, callApi, cache_probe, backend_call. intros Hmiss.
  destruct (cacheable_set options); simpl.
  - rewrite Hmiss; simpl.
    match goal with |- (let '(t', r) := ?c in _) = _ => now destruct c end.
  - match goal with |- (let '(t', r) := ?c in _) = _ => now destruct c end.
Qed.

Lemma callApi_hit (w : World) (endpoint : string) (params : Params)
    (options : option Options) (hit : ApiResponse) :
  from_cache w endpoint params options = Some hit ->
  callApi w endpoint params options
  = ([EvReadCache endpoint params],
     match own_entries (data hit) with
     | Some _ => Ok hit
     | None => Throw TypeError
     end).
Proof.
  unfold from_cache, callApi, summarizeData. intros Hhit.
  destruct (cacheable_set options); [|discriminate].
  simpl. rewrite Hhit; simpl.
  now destruct (own_entries (data hit)).
Qed.

Lemma requests_cache_probe (endpoint : string) (params : Params)
    (options : option Options) :
  requests (cache_probe endpoint params options) = [].
Proof. unfold cache_probe. now destruct (cacheable_set options). Qed.

(** ** Backend selection *)

(** C2, as the code has it. With neither credential set, a call performs
    no network request and no cache write; it reads the cache exactly
    once when it is cacheable and never otherwise; and unless that read
    answers the call, it fails with [NoCredential]. *)
Theorem C2_no_credential (w : World) (endpoint : string) (params : Params)
    (options : option Options) :
  no_credential_set w ->
  let '(t, r) := callApi w endpoint params options in
  network_calls t = 0%nat /\
  cache_writes t = 0%nat /\
  cache_reads t = (if cacheable_set options then 1 else 0)%nat /\
  (from_cache w endpoint params options = None -> r = Throw NoCredential).
Proof.
  intros [Hfd Hfmp]. unfold callApi, from_cache.
  rewrite Hfd, Hfmp.
  destruct (cacheable_set options); simpl.
  - destruct (readCache w endpoint params) as [hit|]; simpl.
    + unfold summarizeData. destruct (own_entries (data hit)); simpl;
        repeat split; try reflexivity; discriminate.
    + repeat split; reflexivity.
  - repeat split; reflexivity.
Qed.

Lemma C2_no_credential_witness :
  no_credential_set world_no_key /\
  let '(t, r) := callApi world_no_key "/prices/" aapl cache_on in
  network_calls t = 0%nat /\ cache_writes t = 0%nat /\ cache_reads t = 1%nat /\
  (from_cache world_no_key "/prices/" aapl cache_on = None -> r = Throw NoCredential).
Proof.
  split; [split; reflexivity|].
  apply (C2_no_credential world_no_key "/prices/" aapl cache_on).
  split; reflexivity.
Defined.

(** C2 fails as stated: with neither credential set, a cacheable call
    reads the cache, and when the cache holds the response the call
    returns it instead of failing. *)
Lemma C2_counterexample :
  no_credential_set world_no_key_cached /\
  callApi world_no_key_cached "/financials/income-statements/" aapl cache_on
  = ([EvReadCache "/financials/income-statements/" aapl], Ok stored) /\
  cache_reads (fst (callApi world_no_key_cached "/financials/income-statements/"
                      aapl cache_on)) = 1%nat.
Proof. repeat split. Qed.

(** C6, as the code has it. With only the FMP credential set and the
    ticker absent or empty, a call issues no network request, whatever
    the endpoint, and unless the cache answers it, it fails with
    [MissingTicker]. *)
Theorem C6_missing_ticker (w : World) (endpoint : string) (params : Params)
    (options : option Options) :
  only_secondary_set w ->
  param params "ticker" = PUndefined \/ param params "ticker" = PString "" ->
  let '(t, r) := callApi w endpoint params options in
  network_calls t = 0%nat /\
  (from_cache w endpoint params options = None -> r = Throw MissingTicker).
Proof.
  intros [Hfd Hfmp] Hticker. red in Hfmp.
  assert (Hfalsy : truthy (param params "ticker") = false)
    by (destruct Hticker as [-> | ->]; reflexivity).
  unfold callApi, from_cache, callSecondary.
  rewrite Hfd, Hfmp, Hfalsy.
  destruct (cacheable_set options); simpl.
  - destruct (readCache w endpoint params) as [hit|]; simpl.
    + unfold summarizeData. destruct (own_entries (data hit)); simpl;
        split; try reflexivity; discriminate.
    + split; reflexivity.
  - split; reflexivity.
Qed.

Lemma C6_missing_ticker_witness :
  only_secondary_set world_fmp_offline /\
  let '(t, r) := callApi world_fmp_offline "/some/unsupported/endpoint/"
                   [("period", PString "annual")] None in
  network_calls t = 0%nat /\
  (from_cache world_fmp_offline "/some/unsupported/endpoint/"
     [("period", PString "annual")] None = None -> r = Throw MissingTicker).
Proof.
  split; [split; reflexivity|].
  apply (C6_missing_ticker world_fmp_offline "/some/unsupported/endpoint/"
           [("period", PString "annual")] None).
  - split; reflexivity.
  - left; reflexivity.
Defined.

(** C6 fails as stated: a cacheable call without ticker whose response
    is in the cache returns that response instead of failing. *)
Lemma C6_counterexample :
  only_secondary_set world_fmp_cached /\
  param [("period", PString "annual")] "ticker" = PUndefined /\
  callApi world_fmp_cached "/financials/income-statements/"
    [("period", PString "annual")] cache_on
  = ([EvReadCache "/financials/income-statements/" [("period", PString "annual")]],
     Ok stored).
Proof. repeat split. Qed.

(** ** The Primary backend *)

(** The loop over the parameters appends exactly the entries that the
    specification lists. *)
Lemma fold_append_items (key : string) (items : list string) (u : URL) :
  fold_left (fun u' v => searchParams_append u' key v) items u
  = mkURL (href_base u) (appended u ++ map (fun item => (key, item)) items).
Proof.
  revert u. induction items as [|item items IH]; intros u; simpl.
  - rewrite app_nil_r. now destruct u.
  - rewrite IH. simpl. now rewrite <- app_assoc.
Qed.

Lemma append_param_entries (u : URL) (kv : string * ParamValue) :
  append_param u kv = mkURL (href_base u) (appended u ++ query_entry kv).
Proof.
  destruct kv as [key value]. unfold append_param, query_entry; simpl.
  destruct value; try reflexivity.
  - rewrite app_nil_r. now destruct u.
  - rewrite app_nil_r. now destruct u.
  - apply fold_append_items.
Qed.

Lemma fold_append_param (params : Params) (u : URL) :
  fold_left append_param params u
  = mkURL (href_base u) (appended u ++ query_entries params).
Proof.
  revert u. induction params as [|kv params IH]; intros u; simpl.
  - rewrite app_nil_r. now destruct u.
  - rewrite IH, append_param_entries. simpl. now rewrite <- app_assoc.
Qed.

(** The runs of [callPrimary], by the network's answer. *)
Lemma callPrimary_run (w : World) (key label endpoint : string)
    (params : Params) (options : option Options) :
  let request :=
    mkRequest (toString (mkURL (BASE_URL ++ endpoint) (query_entries params)))
              [("x-api-key", key)] in
  let '(t, r) := callPrimary w key label endpoint params options in
  if URL_parses w (BASE_URL ++ endpoint) then
    requests t = [request] /\
    (forall resp, r = Ok resp ->
       exists res, outcome (fetch w request) = Resolved res /\
                   ok res = true /\ json res = Some (data resp)) /\
    (forall message, r = Throw (Error message) ->
       prefix "API request failed" message = true)
  else t = [] /\ r = Throw TypeError.
Proof.
  unfold callPrimary.
  destruct (URL_parses w (BASE_URL ++ endpoint)); [|now split].
  rewrite fold_append_param. unfold new_URL; cbn [href_base appended app].
  unfold do_fetch, do_writeCache, emit, ret, throw, bind.
  destruct (outcome (fetch w _)) as [message | res] eqn:Hout.
  - cbn. repeat split; try discriminate.
    intros m [= <-]. reflexivity.
  - destruct (ok res) eqn:Hok; cbn.
    + destruct (json res) as [d|] eqn:Hjson; cbn.
      * unfold summarizeData, ret, throw.
        destruct (cacheable_set options), (own_entries d); cbn;
          repeat split; try discriminate;
          intros resp [= <-]; exists res; auto.
      * repeat split; try discriminate. intros m [= <-]. reflexivity.
    + repeat split; try discriminate. intros m [= <-]. reflexivity.
Qed.

(** C5. A successful call on the Primary backend returns, as its data,
    the parsed body of the response to the request it issued, untouched,
    for every endpoint; and it issued exactly one request unless the
    cache answered it. *)
Theorem C5_primary_identity (w : World) (endpoint : string) (params : Params)
    (options : option Options) (t : list Event) (resp : ApiResponse) :
  primary_set w ->
  callApi w endpoint params options = (t, Ok resp) ->
  (from_cache w endpoint params options = None ->
   requests t = [primary_request w endpoint params]) /\
  (forall req, In req (requests t) ->
     exists res,
       outcome (fetch w req) = Resolved res /\
       ok res = true /\
       json res = Some (data resp)).
Proof.
  intros Hfd Hcall. red in Hfd.
  destruct (from_cache w endpoint params options) as [hit|] eqn:Hcache.
  { rewrite (callApi_hit _ _ _ _ _ Hcache) in Hcall.
    injection Hcall as <- _. split; [discriminate | intros req []]. }
  rewrite (callApi_miss _ _ _ _ Hcache) in Hcall.
  unfold backend_call in Hcall. rewrite Hfd in Hcall.
  pose proof (callPrimary_run w (env_value (env_FINANCIAL_DATASETS_API_KEY w))
                (describeRequest w endpoint params) endpoint params options) as Hrun.
  cbv zeta in Hrun.
  destruct (callPrimary w _ _ endpoint params options) as [t' r'].
  simpl in Hcall. injection Hcall as <- ->.
  rewrite requests_app, requests_cache_probe. cbn [app].
  destruct (URL_parses w (BASE_URL ++ endpoint)).
  - destruct Hrun as (-> & Hok & _).
    split; [reflexivity|]. intros req [<- | []]. now apply Hok.
  - destruct Hrun as [_ Hr]. discriminate.
Qed.

Lemma C5_primary_identity_witness :
  primary_set world_primary /\
  exists res,
    outcome (fetch world_primary
               (primary_request world_primary "/financials/income-statements/" aapl))
    = Resolved res /\
    ok res = true /\
    json res = Some income_body.
Proof.
  split; [reflexivity|].
  apply (C5_primary_identity world_primary "/financials/income-statements/" aapl None
           [EvFetch (primary_request world_primary "/financials/income-statements/" aapl)]
           (mkApiResponse income_body
              (resource (primary_request world_primary
                           "/financials/income-statements/" aapl)))
           eq_refl eq_refl).
  left; reflexivity.
Defined.

(** C9. On the Primary backend every request that a call issues goes to
    the base address followed by the endpoint, with one query entry for
    every parameter that is neither [undefined] nor [null], in order, and
    with an array parameter repeated under its key once per element,
    in order, never joined; the call issues exactly that one request
    unless the cache answers it or the [URL] constructor refuses the
    address. *)
Theorem C9_primary_url (w : World) (endpoint : string) (params : Params)
    (options : option Options) :
  primary_set w ->
  let t := fst (callApi w endpoint params options) in
  (forall req, In req (requests t) -> req = primary_request w endpoint params) /\
  (from_cache w endpoint params options = None ->
   URL_parses w (BASE_URL ++ endpoint) = true ->
   requests t = [primary_request w endpoint params]) /\
  (forall before key items after,
     params = (before ++ (key, PArray items) :: after)%list ->
     query_entries params
     = (query_entries before ++ map (fun item => (key, item)) items
        ++ query_entries after)%list).
Proof.
  intros Hfd. red in Hfd. cbv zeta.
  assert (Hquery : forall before key items after,
             params = (before ++ (key, PArray items) :: after)%list ->
             query_entries params
             = (query_entries before ++ map (fun item => (key, item)) items
                ++ query_entries after)%list).
  { intros before key items after ->. unfold query_entries.
    rewrite flat_map_app. reflexivity. }
  destruct (from_cache w endpoint params options) as [hit|] eqn:Hcache.
  { rewrite (callApi_hit _ _ _ _ _ Hcache). cbn [fst].
    split; [intros req [] | split; [discriminate | exact Hquery]]. }
  rewrite (callApi_miss _ _ _ _ Hcache). cbn [fst].
  rewrite requests_app, requests_cache_probe. cbn [app].
  unfold backend_call. rewrite Hfd.
  pose proof (callPrimary_run w (env_value (env_FINANCIAL_DATASETS_API_KEY w))
                (describeRequest w endpoint params) endpoint params options) as Hrun.
  cbv zeta in Hrun.
  destruct (callPrimary w _ _ endpoint params options) as [t' r'].
  cbn [fst]. split; [|split; [|exact Hquery]].
  - destruct (URL_parses w (BASE_URL ++ endpoint)).
    + destruct Hrun as (-> & _). intros req [<- | []]. reflexivity.
    + destruct Hrun as [-> _]. intros req [].
  - intros _ Hparses. rewrite Hparses in Hrun. now destruct Hrun as (-> & _).
Qed.

Lemma C9_primary_url_witness :
  primary_set world_primary /\
  requests (fst (callApi world_primary "/filings/items/" items_params None))
  = [mkRequest
       (toString (mkURL "https://api.financialdatasets.ai/filings/items/"
                    [("ticker", "AAPL"); ("item", "Item-1"); ("item", "Item-7");
                     ("limit", "2")]))
       [("x-api-key", "fd-key")]].
Proof.
  split; [reflexivity|].
  apply (C9_primary_url world_primary "/filings/items/" items_params None);
    reflexivity.
Defined.

(** C10. With both credentials set, a call behaves exactly as it does
    with the Primary credential alone: the FMP branch is never entered,
    every request goes to the Primary backend with the Primary credential
    in its header, and [NoCredential] is not raised. *)
Theorem C10_both_credentials (w : World) (endpoint : string) (params : Params)
    (options : option Options) :
  primary_set w ->
  secondary_set w ->
  callApi w endpoint params options
  = callApi (without_FMP_key w) endpoint params options /\
  (forall req, In req (requests (fst (callApi w endpoint params options))) ->
     req = primary_request w endpoint params) /\
  snd (callApi w endpoint params options) <> Throw NoCredential /\
  snd (callApi w endpoint params options) <> Throw MissingTicker.
Proof.
  intros Hfd _. red in Hfd. split.
  { unfold callApi, without_FMP_key; simpl. rewrite Hfd. reflexivity. }
  destruct (from_cache w endpoint params options) as [hit|] eqn:Hcache.
  - rewrite (callApi_hit _ _ _ _ _ Hcache). cbn [fst snd].
    split; [intros req []|].
    destruct (own_entries (data hit)); split; discriminate.
  - rewrite (callApi_miss _ _ _ _ Hcache). cbn [fst snd].
    rewrite requests_app, requests_cache_probe. cbn [app].
    unfold backend_call. rewrite Hfd.
    pose proof (callPrimary_run w (env_value (env_FINANCIAL_DATASETS_API_KEY w))
                  (describeRequest w endpoint params) endpoint params options) as Hrun.
    cbv zeta in Hrun.
    destruct (callPrimary w _ _ endpoint params options) as [t' r'].
    cbn [fst snd].
    destruct (URL_parses w (BASE_URL ++ endpoint)).
    + destruct Hrun as (-> & _ & Hmsg). split; [|split].
      * intros req [<- | []]. reflexivity.
      * intros ->. specialize (Hmsg _ eq_refl). discriminate.
      * intros ->. specialize (Hmsg _ eq_refl). discriminate.
    + destruct Hrun as [-> ->]. split; [intros req []|]. split; discriminate.
Qed.

Lemma C10_both_credentials_witness :
  primary_set world_both /\ secondary_set world_both /\
  callApi world_both "/financials/income-statements/" aapl None
  = ([EvFetch (mkRequest
        (toString (mkURL "https://api.financialdatasets.ai/financials/income-statements/"
                     [("ticker", "AAPL")]))
        [("x-api-key", "fd-key")])],
     Ok (mkApiResponse income_body
           (toString (mkURL "https://api.financialdatasets.ai/financials/income-statements/"
                        [("ticker", "AAPL")])))).
Proof.
  split; [reflexivity|]. split; [reflexivity|].
  rewrite (proj1 (C10_both_credentials world_both "/financials/income-statements/"
                    aapl None eq_refl eq_refl)).
  reflexivity.
Defined.

(** ** The FMP backend: sub-requests *)

Lemma fold_append_pairs (extra : list (string * string)) (u : URL) :
  fold_left (fun u' kv => searchParams_append u' (fst kv) (snd kv)) extra u
  = mkURL (href_base u) (appended u ++ extra).
Proof.
  revert u. induction extra as [|[k v] extra IH]; intros u; simpl.
  - rewrite app_nil_r. now destruct u.
  - rewrite IH. simpl. now rewrite <- app_assoc.
Qed.

(** The query of a sub-request, entry by entry. *)
Lemma fmp_url_entries (key : string) (params : Params) (ticker : ParamValue)
    (sub : string) (extra : option (list (string * string))) (skip : bool) :
  fmp_url key params ticker sub extra skip
  = mkURL (FMP_BASE_URL ++ sub)
      ((if skip then [] else [("symbol", String_ ticker)])
       ++ [("apikey", key)]
       ++ (if truthy (param params "limit")
           then [("limit", String_ (param params "limit"))] else [])
       ++ (if strict_eq_string (param params "period") "quarterly"
           then [("period", "quarter")] else [])
       ++ match extra with Some e => e | None => [] end)%list.
Proof.
  unfold fmp_url.
  destruct extra as [e|]; [rewrite fold_append_pairs|];
    destruct skip, (truthy (param params "limit")),
      (strict_eq_string (param params "period") "quarterly");
    cbn; rewrite ?app_nil_r; reflexivity.
Qed.

(** A sub-request is always issued; its promise is fulfilled with the
    parsed body under the result key when the network answers
    successfully, and rejected otherwise. *)
Lemma fetchFMP_cases (w : World) (key label : string) (params : Params)
    (ticker : ParamValue) (sub subKey : string)
    (extra : option (list (string * string))) (skip : bool) :
  let req := sub_request key params ticker sub extra skip in
  let p := fetchFMP w key label params ticker sub subKey extra skip in
  (exists d, answer w req = Some d /\
     await p = ([EvFetch req],
                Ok (mkApiResponse (VObject [(subKey, d)]) (resource req)))) \/
  (exists e, answer w req = None /\ await p = ([EvFetch req], Throw e)).
Proof.
  cbv zeta. unfold fetchFMP, await, sub_request, answer, do_fetch, fmp_settle.
  cbn [snd resource].
  destruct (outcome (fetch w _)) as [message | res]; cbn.
  - right. eauto.
  - destruct (ok res); cbn; [|right; eauto].
    destruct (json res) as [d|]; cbn; [left|right]; eauto.
Qed.

(** *** Requests issued by composite computations *)

Lemma issues_ret {A} (P : Request -> Prop) (a : A) : issues P (ret a).
Proof. intros req []. Qed.

Lemma issues_throw {A} (P : Request -> Prop) (e : Exn) : issues P (@throw A e).
Proof. intros req []. Qed.

Lemma issues_bind {A B} (P : Request -> Prop) (m : M A) (k : A -> M B) :
  issues P m -> (forall a, issues P (k a)) -> issues P (bind m k).
Proof.
  unfold issues, bind. intros Hm Hk req.
  destruct m as [t [a | e]]; cbn [fst] in *.
  - specialize (Hk a). destruct (k a) as [t' r]. cbn [fst] in *.
    rewrite requests_app, in_app_iff. intros [H | H]; auto.
  - auto.
Qed.

Lemma issues_fetchFMP (P : Request -> Prop) (w : World) (key label : string)
    (params : Params) (ticker : ParamValue) (sub subKey : string)
    (extra : option (list (string * string))) (skip : bool) :
  P (sub_request key params ticker sub extra skip) ->
  issues P (await (fetchFMP w key label params ticker sub subKey extra skip)).
Proof.
  intros HP req.
  destruct (fetchFMP_cases w key label params ticker sub subKey extra skip)
    as [(d & _ & ->) | (e & _ & ->)]; cbn; intros [<- | []]; exact HP.
Qed.

Lemma issues_returnFMP (P : Request -> Prop) (endpoint : string)
    (params : Params) (options : option Options) (result : ApiResponse) :
  issues P (returnFMP endpoint params options result).
Proof.
  unfold returnFMP, summarizeData, do_writeCache, emit, ret, throw, bind.
  intros req.
  destruct (cacheable_set options), (own_entries (data result)); cbn; intros [].
Qed.

Lemma issues_filter_filings (P : Request -> Prop) (params : Params)
    (result : ApiResponse) :
  issues P (filter_filings params result).
Proof.
  unfold filter_filings. intros req.
  destruct (truthy (param params "filing_type")); [|intros []].
  destruct (get (data result) "filings"); try (intros []).
  destruct (filter_by_type _ elems); intros [].
Qed.

Lemma issues_Promise_all {A} (P : Request -> Prop) (ps : list (Promise A)) :
  Forall (fun p => issues P (await p)) ps -> issues P (Promise_all ps).
Proof.
  unfold issues, Promise_all, await. cbn [fst].
  induction 1 as [|p ps Hp _ IH]; cbn; [intros req []|].
  intros req. rewrite requests_app, in_app_iff. intros [H | H]; auto.
Qed.

(** Every request of the FMP branch is a sub-request. *)
Lemma callSecondary_issues (P : Request -> Prop) (w : World)
    (key label endpoint : string) (params : Params) (options : option Options) :
  (forall sub extra skip,
     (extra = None \/ extra = Some (date_range params) \/
      extra = Some (("symbols", String_ (param params "ticker")) :: date_range params) \/
      extra = Some [("from", toISOString_slice_0_10 (now w - 365 * 86400000));
                    ("to", toISOString_slice_0_10 (now w))]) ->
     P (sub_request key params (param params "ticker") sub extra skip)) ->
  issues P (callSecondary w key label endpoint params options).
Proof.
  intros HP. unfold callSecondary.
  destruct (negb (truthy (param params "ticker"))); [apply issues_throw|].
  destruct (matchRule endpoint);
    try apply issues_throw;
    try (apply issues_bind;
         [apply issues_fetchFMP, HP; auto
         |intros a; try apply issues_returnFMP]).
  - unfold callFinancials. apply issues_bind.
    + apply issues_Promise_all.
      repeat constructor; apply issues_fetchFMP, HP; auto.
    + intros [|income [|balance [|cash [|extra rest]]]]; try apply issues_throw.
      unfold summarizeData, do_writeCache, emit, ret, throw, bind.
      intros req. destruct (cacheable_set options); cbn; intros [].
  - apply issues_bind; [apply issues_filter_filings|].
    intros a'. apply issues_returnFMP.
Qed.

(** ** Query parameters of the sub-requests *)

Lemma getAll_app (b : string) (l1 l2 : list (string * string)) (k : string) :
  getAll (mkURL b (l1 ++ l2)) k
  = (getAll (mkURL b l1) k ++ getAll (mkURL b l2) k)%list.
Proof. unfold getAll; cbn. now rewrite filter_app, map_app. Qed.

Lemma sub_request_carries (key : string) (params : Params) (ticker : ParamValue)
    (sub : string) (extra : option (list (string * string))) (skip : bool) :
  (forall e, extra = Some e ->
     getAll (mkURL "" e) "limit" = [] /\ getAll (mkURL "" e) "period" = []) ->
  carries_limit_and_period params (sub_request key params ticker sub extra skip).
Proof.
  intros Hextra. unfold carries_limit_and_period, sub_request. cbn [resource].
  eexists; split; [reflexivity|].
  rewrite fmp_url_entries.
  assert (He : getAll (mkURL "" match extra with Some e => e | None => [] end) "limit" = []
               /\ getAll (mkURL "" match extra with Some e => e | None => [] end) "period" = []).
  { destruct extra as [e|]; [now apply Hextra | now split]. }
  destruct He as [Hl Hp]. unfold getAll in *. cbn [appended] in *.
  rewrite !filter_app, !map_app, Hl, Hp.
  destruct skip, (truthy (param params "limit")),
    (strict_eq_string (param params "period") "quarterly"); split; reflexivity.
Qed.

(** C8, as the code has it. Every sub-request of a call on the FMP
    backend carries [period=quarter] exactly when the period is the
    string ["quarterly"] and no [period] entry otherwise; it carries the
    string form [String(limit)] of [limit] exactly when [limit] is truthy
    (given, not 0, not [NaN] and not empty), and no [limit] entry
    otherwise. *)
Theorem C8_limit_and_period (w : World) (endpoint : string) (params : Params)
    (options : option Options) :
  only_secondary_set w ->
  issues (carries_limit_and_period params) (callApi w endpoint params options).
Proof.
  intros [Hfd Hfmp]. red in Hfmp. intros req.
  destruct (from_cache w endpoint params options) as [hit|] eqn:Hcache.
  - rewrite (callApi_hit _ _ _ _ _ Hcache). intros [].
  - rewrite (callApi_miss _ _ _ _ Hcache). cbn [fst].
    rewrite requests_app, requests_cache_probe. cbn [app].
    unfold backend_call. rewrite Hfd, Hfmp.
    apply callSecondary_issues.
    intros sub extra skip Hextra. apply sub_request_carries.
    intros e ->.
    destruct Hextra as [H | [H | [H | H]]]; try discriminate;
      injection H as ->; unfold date_range;
      destruct (truthy (param params "start_date")),
        (truthy (param params "end_date")); split; reflexivity.
Qed.

Lemma C8_limit_and_period_witness :
  only_secondary_set (world_fmp (VArray [])) /\
  carries_limit_and_period
    [("ticker", PString "MSFT"); ("period", PString "quarterly");
     ("limit", PNumber (Number_of_Z 4))]
    (mkRequest
       (toString (mkURL "https://financialmodelingprep.com/stable/income-statement"
                    [("symbol", "MSFT"); ("apikey", "fmp-key"); ("limit", "4");
                     ("period", "quarter")])) []).
Proof.
  split; [split; reflexivity|].
  apply (C8_limit_and_period (world_fmp (VArray [])) "/financials/income-statements/"
           [("ticker", PString "MSFT"); ("period", PString "quarterly");
            ("limit", PNumber (Number_of_Z 4))] None).
  - split; reflexivity.
  - left; reflexivity.
Defined.

(** C8 fails as stated: a [limit] of 0 is given but not forwarded. *)
Lemma C8_counterexample :
  only_secondary_set (world_fmp (VArray [])) /\
  given (param [("ticker", PString "AAPL"); ("limit", PNumber (Number_of_Z 0))] "limit") /\
  requests (fst (callApi (world_fmp (VArray [])) "/financials/income-statements/"
                   [("ticker", PString "AAPL"); ("limit", PNumber (Number_of_Z 0))] None))
  = [mkRequest
       (toString (mkURL "https://financialmodelingprep.com/stable/income-statement"
                    [("symbol", "AAPL"); ("apikey", "fmp-key")])) []].
Proof. repeat split. discriminate. Qed.

(** The string form is that of [String]: a large limit goes out in
    exponent notation, a fractional one with its decimal point, and a
    [NaN], being falsy, not at all. *)
Example limit_string_forms :
  map (fun limit =>
         requests (fst (callApi (world_fmp (VArray [])) "/financials/income-statements/"
                          [("ticker", PString "AAPL"); ("limit", PNumber limit)] None)))
      [Number_of_Z (10 ^ 21); Number_of_Z (10 ^ 20); Finite false 25 1; NaN]
  = map (fun entries =>
           [mkRequest
              (toString (mkURL "https://financialmodelingprep.com/stable/income-statement"
                           (("symbol", "AAPL") :: ("apikey", "fmp-key") :: entries))) []])
      [[("limit", "1e+21")]; [("limit", "100000000000000000000")];
       [("limit", "2.5")]; []].
Proof. reflexivity. Qed.

(** ** Reshaping of the FMP responses *)

(** [returnFMP] on an object: at most a cache write, and the result
    unchanged. *)
Lemma returnFMP_object (endpoint : string) (params : Params)
    (options : option Options) (result : ApiResponse)
    (props : list (string * Value)) :
  data result = VObject props ->
  returnFMP endpoint params options result
  = (if cacheable_set options
     then [EvWriteCache endpoint params (data result) (url result)] else [],
     Ok result).
Proof.
  intros Hdata. unfold returnFMP, summarizeData, do_writeCache, emit, ret, bind.
  rewrite Hdata. now destruct (cacheable_set options).
Qed.

(** The run of a rule that fetches one sub-request, reshapes its result
    into an object and returns it. *)
Lemma fetch_reshape_return (w : World) (key label endpoint : string)
    (params : Params) (options : option Options) (ticker : ParamValue)
    (sub subKey : string) (extra : option (list (string * string)))
    (skip : bool) (reshape : ApiResponse -> ApiResponse) :
  (forall r, exists props, data (reshape r) = VObject props) ->
  let req := sub_request key params ticker sub extra skip in
  let run :=
    result <- await (fetchFMP w key label params ticker sub subKey extra skip) ;;
    returnFMP endpoint params options (reshape result) in
  requests (fst run) = [req] /\
  (forall raw, answer w req = Some raw ->
     snd run = Ok (reshape (mkApiResponse (VObject [(subKey, raw)]) (resource req)))) /\
  (answer w req = None -> exists e, snd run = Throw e /\ cache_writes (fst run) = 0%nat).
Proof.
  intros Hobj. cbv zeta.
  destruct (fetchFMP_cases w key label params ticker sub subKey extra skip)
    as [(d & Hans & ->) | (e & Hans & ->)]; rewrite Hans.
  - destruct (Hobj (mkApiResponse (VObject [(subKey, d)])
                      (resource (sub_request key params ticker sub extra skip))))
      as [props Hprops].
    unfold bind. rewrite (returnFMP_object _ _ _ _ _ Hprops).
    cbn [fst snd]. rewrite requests_app.
    split; [|split].
    + now destruct (cacheable_set options).
    + now intros raw [= <-].
    + discriminate.
  - cbn. split; [reflexivity|]. split; [discriminate|]. eauto.
Qed.

(** C4. On the FMP backend, for an endpoint that the
    [/financial-metrics/snapshot/] rule or the [/prices/snapshot] rule
    handles: when the backend's answer to the sub-request parses to an
    array with at least one element, [data.snapshot] is that first
    element, not the array; when it parses to something that is not an
    array, [data.snapshot] is that value itself. The sub-request is
    issued, once, whenever a ticker is there and the cache does not
    answer. *)
Theorem C4_snapshot_unwrap (w : World) (endpoint : string) (params : Params)
    (options : option Options) :
  only_secondary_set w ->
  matchRule endpoint = RMetricsSnapshot \/ matchRule endpoint = RPricesSnapshot ->
  let '(t, r) := callApi w endpoint params options in
  (from_cache w endpoint params options = None ->
   truthy (param params "ticker") = true -> exists req, requests t = [req]) /\
  (forall req raw,
     In req (requests t) -> answer w req = Some raw ->
     exists resp, r = Ok resp /\
       (forall x rest, raw = VArray (x :: rest) ->
          data resp = VObject [("snapshot", x)]) /\
       (isArray raw = false -> data resp = VObject [("snapshot", raw)])).
Proof.
  intros [Hfd Hfmp] Hrule. red in Hfmp.
  destruct (from_cache w endpoint params options) as [hit|] eqn:Hcache.
  { rewrite (callApi_hit _ _ _ _ _ Hcache). cbn.
    split; [discriminate | intros req raw []]. }
  rewrite (callApi_miss _ _ _ _ Hcache).
  rewrite requests_app, requests_cache_probe. cbn [app].
  unfold backend_call. rewrite Hfd, Hfmp. unfold callSecondary.
  destruct (truthy (param params "ticker")); cbn [negb].
  2: { cbn. split; [discriminate | intros req raw []]. }
  assert (Hshape : forall r, exists props,
             data (unwrap_first "snapshot" r) = VObject props)
    by (intros r; unfold unwrap_first; cbn; eauto).
  destruct Hrule as [-> | ->].
  - destruct (fetch_reshape_return w (env_value (env_FMP_API_KEY w))
                (describeRequest w endpoint params) endpoint params options
                (param params "ticker") "/ratios-ttm" "snapshot" None false
                (unwrap_first "snapshot") Hshape) as (Hreq & Hok & _).
    rewrite Hreq. split; [eauto|].
    intros req raw [<- | []] Hans. rewrite (Hok _ Hans).
    eexists; split; [reflexivity|]. unfold unwrap_first; cbn. split.
    + now intros x rest ->.
    + now destruct raw.
  - destruct (fetch_reshape_return w (env_value (env_FMP_API_KEY w))
                (describeRequest w endpoint params) endpoint params options
                (param params "ticker") "/quote" "snapshot" None false
                (unwrap_first "snapshot") Hshape) as (Hreq & Hok & _).
    rewrite Hreq. split; [eauto|].
    intros req raw [<- | []] Hans. rewrite (Hok _ Hans).
    eexists; split; [reflexivity|]. unfold unwrap_first; cbn. split.
    + now intros x rest ->.
    + now destruct raw.
Qed.

Lemma C4_snapshot_unwrap_witness :
  only_secondary_set (world_fmp quote_body) /\
  matchRule "/prices/snapshot/" = RPricesSnapshot /\
  let '(t, r) := callApi (world_fmp quote_body) "/prices/snapshot/" aapl None in
  (from_cache (world_fmp quote_body) "/prices/snapshot/" aapl None = None ->
   truthy (param aapl "ticker") = true -> exists req, requests t = [req]) /\
  (forall req raw,
     In req (requests t) -> answer (world_fmp quote_body) req = Some raw ->
     exists resp, r = Ok resp /\
       (forall x rest, raw = VArray (x :: rest) ->
          data resp = VObject [("snapshot", x)]) /\
       (isArray raw = false -> data resp = VObject [("snapshot", raw)])).
Proof.
  split; [split; reflexivity|]. split; [reflexivity|].
  apply (C4_snapshot_unwrap (world_fmp quote_body) "/prices/snapshot/" aapl None).
  - split; reflexivity.
  - right; reflexivity.
Defined.

(** ** Endpoints without an FMP counterpart *)

Lemma prefix_app_l (a b s : string) :
  prefix (a ++ b) s = true -> prefix a s = true.
Proof.
  revert s. induction a as [|c a IH]; intros s; [now destruct s|].
  destruct s as [|c' s]; cbn; [discriminate|].
  destruct (Ascii.ascii_dec c c'); [apply IH | discriminate].
Qed.

Lemma includes_app_l (s a b : string) :
  includes s (a ++ b) = true -> includes s a = true.
Proof.
  induction s as [|c s IH]; cbn [includes]; rewrite !orb_true_iff.
  - intros [H | H]; [left; now apply prefix_app_l with b | discriminate].
  - intros [H | H]; [left; now apply prefix_app_l with b | right; auto].
Qed.

(** The crypto rule is the one that applies to an endpoint that contains
    [/crypto/] and that no earlier rule claims. *)
Lemma matchRule_crypto (endpoint : string) :
  includes endpoint "/crypto/" = true ->
  claimed_before_crypto endpoint = false ->
  matchRule endpoint = RCrypto.
Proof.
  unfold claimed_before_crypto. rewrite !orb_false_iff.
  intros Hcrypto ((((H1 & H2) & H3) & H4) & H5).
  assert (H6 : includes endpoint "/financial-metrics/snapshot/" = false).
  { destruct (includes endpoint "/financial-metrics/snapshot/") eqn:E; [|reflexivity].
    rewrite <- H5. symmetry.
    apply (includes_app_l endpoint "/financial-metrics/" "snapshot/"). exact E. }
  assert (H7 : String.eqb endpoint "/financials/" = false).
  { destruct (String.eqb_spec endpoint "/financials/") as [-> |]; [|reflexivity].
    discriminate Hcrypto. }
  unfold matchRule. now rewrite H1, H2, H3, H4, H7, H6, H5, Hcrypto.
Qed.

(** C7, as the code has it. On the FMP backend, with a ticker, an
    endpoint that contains [/crypto/] and is not claimed by one of the
    earlier rules (whether or not it also contains [/prices/]) makes
    the call fail with [UnsupportedByBackend], without any network
    request or cache write, and with a message that names
    FINANCIAL_DATASETS_API_KEY. *)
Theorem C7_crypto_unsupported (w : World) (endpoint : string) (params : Params)
    (options : option Options) :
  only_secondary_set w ->
  from_cache w endpoint params options = None ->
  truthy (param params "ticker") = true ->
  includes endpoint "/crypto/" = true ->
  claimed_before_crypto endpoint = false ->
  callApi w endpoint params options
  = (cache_probe endpoint params options, Throw (UnsupportedByBackend crypto_msg)) /\
  network_calls (cache_probe endpoint params options) = 0%nat /\
  cache_writes (cache_probe endpoint params options) = 0%nat /\
  includes crypto_msg "FINANCIAL_DATASETS_API_KEY" = true.
Proof.
  intros [Hfd Hfmp] Hmiss Hticker Hcrypto Hearlier. red in Hfmp.
  rewrite (callApi_miss _ _ _ _ Hmiss).
  unfold backend_call. rewrite Hfd, Hfmp. unfold callSecondary.
  rewrite Hticker, (matchRule_crypto _ Hcrypto Hearlier). cbn.
  rewrite app_nil_r. unfold network_calls. rewrite requests_cache_probe.
  repeat split. unfold cache_probe. now destruct (cacheable_set options).
Qed.

Lemma C7_crypto_unsupported_witness :
  only_secondary_set (world_fmp quote_body) /\
  includes "/crypto/prices/snapshot/" "/prices/snapshot" = true /\
  callApi (world_fmp quote_body) "/crypto/prices/snapshot/" btc None
  = ([], Throw (UnsupportedByBackend crypto_msg)).
Proof.
  split; [split; reflexivity|]. split; [reflexivity|].
  apply (C7_crypto_unsupported (world_fmp quote_body) "/crypto/prices/snapshot/"
           btc None); try reflexivity.
  split; reflexivity.
Defined.

(** C7 fails as stated: an endpoint that contains [/crypto/] and also
    the pattern of an earlier rule is served by that rule, over the
    network. *)
Lemma C7_counterexample :
  only_secondary_set (world_fmp quote_body) /\
  truthy (param btc "ticker") = true /\
  includes "/crypto/financial-metrics/" "/crypto/" = true /\
  callApi (world_fmp quote_body) "/crypto/financial-metrics/" btc None
  = ([EvFetch (mkRequest
        (toString (mkURL "https://financialmodelingprep.com/stable/ratios"
                     [("symbol", "BTC-USD"); ("apikey", "fmp-key")])) [])],
     Ok (mkApiResponse (VObject [("financial_metrics", quote_body)])
           (toString (mkURL "https://financialmodelingprep.com/stable/ratios"
                        [("symbol", "BTC-USD"); ("apikey", "fmp-key")])))).
Proof. repeat split. Qed.

(** ** Filings *)


(** The filter of the code keeps what [List.filter] keeps, whenever it
    returns. *)
Lemma type_is_has_type (wanted : string) (f : Value) (keep : bool) :
  type_is wanted f = Ok keep -> keep = has_type wanted f.
Proof.
  unfold type_is, has_type, get.
  destruct f; intros [= <-]; reflexivity.
Qed.

Lemma filter_by_type_filter (wanted : string) (filings kept : list Value) :
  filter_by_type wanted filings = Ok kept ->
  kept = filter (has_type wanted) filings.
Proof.
  revert kept. induction filings as [|f rest IH]; intros kept; cbn.
  - now intros [= <-].
  - destruct (type_is wanted f) as [keep|e] eqn:Hf; [|discriminate].
    destruct (filter_by_type wanted rest) as [kept'|e]; [|discriminate].
    intros [= <-]. rewrite <- (type_is_has_type _ _ _ Hf), <- (IH _ eq_refl).
    reflexivity.
Qed.

Lemma filter_by_type_returns (wanted : string) (filings : list Value) :
  forallb (fun f => negb (nullish f)) filings = true ->
  filter_by_type wanted filings = Ok (filter (has_type wanted) filings).
Proof.
  induction filings as [|f rest IH]; cbn; [reflexivity|].
  rewrite andb_true_iff. intros [Hf Hrest]. rewrite (IH Hrest).
  destruct f; try discriminate; reflexivity.
Qed.


Lemma get_single (k : string) (v : Value) : get (VObject [(k, v)]) k = v.
Proof. cbn. now rewrite String.eqb_refl. Qed.





(** The same call, evaluated: the window of 2026-11-01 and the two
    10-K filings, in their order. *)
Example filings_10K :
  callApi (world_fmp filings_body) "/filings/" filings_params None
  = (let u := mkURL "https://financialmodelingprep.com/stable/sec-filings-search/symbol"
                [("symbol", "AAPL"); ("apikey", "fmp-key"); ("limit", "5");
                 ("from", "2025-11-01"); ("to", "2026-11-01")] in
     ([EvFetch (mkRequest (toString u) [])],
      Ok (mkApiResponse (VObject [("filings", VArray [filing "10-K"; filing "10-K"])])
            (toString u)))).
Proof. reflexivity. Qed.


(** ** The aggregated financial statements *)

(** C1, as the code has it. With only the FMP credential set and a
    ticker, a call to [/financials/] that the cache does not answer
    issues exactly three sub-requests, for the income statement, the
    balance sheet and the cash-flow statement, all three whatever the
    fate of any of them; when the three succeed, the data is the single
    key [financials] holding exactly the three statement keys; when one
    of them fails, the call fails, returning nothing and writing nothing
    to the cache. *)
Theorem C1_financials_fanout (w : World) (params : Params)
    (options : option Options) :
  only_secondary_set w ->
  from_cache w "/financials/" params options = None ->
  truthy (param params "ticker") = true ->
  let sub := sub_request (env_value (env_FMP_API_KEY w)) params
               (param params "ticker") in
  let income := sub "/income-statement" None false in
  let balance := sub "/balance-sheet-statement" None false in
  let cash := sub "/cash-flow-statement" None false in
  let '(t, r) := callApi w "/financials/" params options in
  requests t = [income; balance; cash] /\
  (forall d1 d2 d3,
     answer w income = Some d1 -> answer w balance = Some d2 ->
     answer w cash = Some d3 ->
     r = Ok (mkApiResponse
               (VObject [("financials",
                          VObject [("income_statements", d1);
                                   ("balance_sheets", d2);
                                   ("cash_flow_statements", d3)])])
               aggregated_url)) /\
  (answer w income = None \/ answer w balance = None \/ answer w cash = None ->
   exists e, r = Throw e /\ cache_writes t = 0%nat).
Proof.
  intros [Hfd Hfmp] Hmiss Hticker. red in Hfmp. cbv zeta.
  rewrite (callApi_miss _ _ _ _ Hmiss).
  rewrite requests_app, requests_cache_probe. cbn [app].
  unfold backend_call. rewrite Hfd, Hfmp. unfold callSecondary.
  rewrite Hticker. cbn [negb].
  change (matchRule "/financials/") with RFinancials. cbv iota.
  unfold callFinancials.
  set (key := env_value (env_FMP_API_KEY w)).
  set (label := describeRequest w "/financials/" params).
  set (ticker := param params "ticker").
  pose proof (fetchFMP_cases w key label params ticker
                "/income-statement" "income_statements" None false) as H1.
  pose proof (fetchFMP_cases w key label params ticker
                "/balance-sheet-statement" "balance_sheets" None false) as H2.
  pose proof (fetchFMP_cases w key label params ticker
                "/cash-flow-statement" "cash_flow_statements" None false) as H3.
  cbv zeta in H1, H2, H3. unfold await in H1, H2, H3.
  destruct (fetchFMP w key label params ticker
              "/income-statement" "income_statements" None false) as [i1 m1].
  destruct (fetchFMP w key label params ticker
              "/balance-sheet-statement" "balance_sheets" None false) as [i2 m2].
  destruct (fetchFMP w key label params ticker
              "/cash-flow-statement" "cash_flow_statements" None false) as [i3 m3].
  cbn [snd] in H1, H2, H3.
  assert (Hprobe : cache_writes (cache_probe "/financials/" params options) = 0%nat)
    by (unfold cache_probe; now destruct (cacheable_set options)).
  destruct H1 as [(d1 & A1 & ->) | (e1 & A1 & ->)];
  destruct H2 as [(d2 & A2 & ->) | (e2 & A2 & ->)];
  destruct H3 as [(d3 & A3 & ->) | (e3 & A3 & ->)];
  rewrite A1, A2, A3; unfold Promise_all, bind; cbn [map fst snd concat app
    first_rejection fulfilled_values];
  repeat match goal with
         | |- context [(?a <? ?b)%nat] => destruct (a <? b)%nat
         end;
  cbn [fst snd app].
  1: { unfold summarizeData, do_writeCache, emit, ret. cbn.
       destruct (cacheable_set options); cbn;
         (split; [reflexivity|]);
         (split; [intros ? ? ? [= <-] [= <-] [= <-]; reflexivity|]);
         intros [H | [H | H]]; discriminate. }
  all: (split; [reflexivity|]);
       (split; [intros ? ? ?; try discriminate;
                intros ?; try discriminate; intros ?; discriminate|]);
       intros _; eexists; (split; [reflexivity|]);
       unfold cache_writes in *; rewrite filter_app, length_app, Hprobe;
       reflexivity.
Qed.

Lemma C1_financials_fanout_witness :
  only_secondary_set (world_statements statements_network) /\
  callApi (world_statements statements_network) "/financials/" aapl None
  = (let sub path :=
       mkRequest (toString (mkURL ("https://financialmodelingprep.com/stable" ++ path)
                              [("symbol", "AAPL"); ("apikey", "fmp-key")])) [] in
     ([EvFetch (sub "/income-statement"); EvFetch (sub "/balance-sheet-statement");
       EvFetch (sub "/cash-flow-statement")],
      Ok stored_financials)).
Proof.
  split; [split; reflexivity|].
  pose proof (C1_financials_fanout (world_statements statements_network) aapl None
                (conj eq_refl eq_refl) eq_refl eq_refl) as H.
  cbv zeta in H.
  destruct (callApi (world_statements statements_network) "/financials/" aapl None)
    as [t r] eqn:Hcall.
  destruct H as (_ & Hok & _).
  rewrite (Hok income_rows balance_rows cash_rows eq_refl eq_refl eq_refl).
  injection Hcall as <- _. reflexivity.
Defined.

(** One refused statement fails the whole call, after all three
    requests went out. *)
Example financials_one_refused :
  callApi (world_statements refusing_network) "/financials/" aapl cache_on
  = (let sub path :=
       mkRequest (toString (mkURL ("https://financialmodelingprep.com/stable" ++ path)
                              [("symbol", "AAPL"); ("apikey", "fmp-key")])) [] in
     ([EvReadCache "/financials/" aapl;
       EvFetch (sub "/income-statement"); EvFetch (sub "/balance-sheet-statement");
       EvFetch (sub "/cash-flow-statement")],
      Throw (Error "FMP API request failed: 401"))).
Proof. reflexivity. Qed.

(** Of an unparseable income statement and a refused balance sheet that
    arrive together, it is the refusal that the call reports: the
    parse failure is raised only after the body has been read. *)
Example financials_refusal_before_parse_failure :
  snd (callApi (world_statements garbling_network) "/financials/" aapl cache_on)
  = Throw (Error "FMP API request failed: 401").
Proof. reflexivity. Qed.

(** C1 fails as stated: a cacheable call whose aggregated response is
    in the cache issues no sub-request at all. *)
Lemma C1_counterexample :
  only_secondary_set world_fmp_financials_cached /\
  truthy (param aapl "ticker") = true /\
  callApi world_fmp_financials_cached "/financials/" aapl cache_on
  = ([EvReadCache "/financials/" aapl], Ok stored_financials) /\
  network_calls (fst (callApi world_fmp_financials_cached "/financials/" aapl cache_on))
  = 0%nat.
Proof. repeat split. Qed.

(** ** The tests of the repository (api.test.ts), replayed on the model *)

Example test_maps_income_statements :
  callApi (world_fmp income_rows) "/financials/income-statements/"
    [("ticker", PString "AAPL"); ("period", PString "annual"); ("limit", PNumber (Number_of_Z 1))]
    None
  = (let u := fmp "/income-statement"
                [("symbol", "AAPL"); ("apikey", "fmp-key"); ("limit", "1")] in
     ([EvFetch (mkRequest u [])],
      Ok (mkApiResponse (VObject [("income_statements", income_rows)]) u))).
Proof. reflexivity. Qed.

Example test_maps_prices_snapshot :
  callApi (world_fmp quote_body) "/prices/snapshot/" aapl None
  = (let u := fmp "/quote" [("symbol", "AAPL"); ("apikey", "fmp-key")] in
     ([EvFetch (mkRequest u [])],
      Ok (mkApiResponse
            (VObject [("snapshot",
                       VObject [("symbol", VString "AAPL"); ("price", VNumber (Number_of_Z 185))])])
            u))).
Proof. reflexivity. Qed.

Example test_maps_prices_historical :
  callApi (world_fmp historical_body) "/prices/"
    [("ticker", PString "AAPL"); ("start_date", PString "2024-01-01");
     ("end_date", PString "2024-12-31")] None
  = (let u := fmp "/historical-price-eod/full"
                [("symbol", "AAPL"); ("apikey", "fmp-key");
                 ("from", "2024-01-01"); ("to", "2024-12-31")] in
     ([EvFetch (mkRequest u [])],
      Ok (mkApiResponse
            (VObject [("prices", VArray [VObject [("date", VString "2024-12-31")]])])
            u))).
Proof. reflexivity. Qed.

Example test_news_uses_symbols :
  requests (fst (callApi (world_fmp (VArray [])) "/news/"
                   [("ticker", PString "AAPL"); ("limit", PNumber (Number_of_Z 10))] None))
  = [mkRequest (fmp "/news/stock"
                  [("apikey", "fmp-key"); ("limit", "10"); ("symbols", "AAPL")]) []].
Proof. reflexivity. Qed.

Example test_forwards_limit_and_quarterly :
  requests (fst (callApi (world_fmp (VArray [])) "/financials/income-statements/"
                   [("ticker", PString "MSFT"); ("period", PString "quarterly");
                    ("limit", PNumber (Number_of_Z 4))] None))
  = [mkRequest (fmp "/income-statement"
                  [("symbol", "MSFT"); ("apikey", "fmp-key"); ("limit", "4");
                   ("period", "quarter")]) []].
Proof. reflexivity. Qed.

Example test_filings_items_unsupported :
  callApi (world_fmp (VArray [])) "/filings/items/" aapl None
  = ([], Throw (UnsupportedByBackend filings_items_msg)).
Proof. reflexivity. Qed.

Example test_unsupported_endpoint :
  callApi (world_fmp (VArray [])) "/some/unsupported/endpoint/" aapl None
  = ([], Throw (Error "Endpoint /some/unsupported/endpoint/ not supported by FMP adapter yet")).
Proof. reflexivity. Qed.

Example test_ticker_missing :
  callApi (world_fmp (VArray [])) "/financials/income-statements/"
    [("period", PString "annual"); ("limit", PNumber (Number_of_Z 1))] None
  = ([], Throw MissingTicker).
Proof. reflexivity. Qed.

Example test_writes_to_cache :
  callApi (world_fmp income_rows) "/financials/income-statements/" aapl cache_on
  = (let u := fmp "/income-statement" [("symbol", "AAPL"); ("apikey", "fmp-key")] in
     ([EvReadCache "/financials/income-statements/" aapl;
       EvFetch (mkRequest u []);
       EvWriteCache "/financials/income-statements/" aapl
         (VObject [("income_statements", income_rows)]) u],
      Ok (mkApiResponse (VObject [("income_statements", income_rows)]) u))).
Proof. reflexivity. Qed.

Example test_no_api_key :
  callApi world_no_key "/financials/income-statements/" aapl None
  = ([], Throw NoCredential).
Proof. reflexivity. Qed.

(** ** Which endpoints the snapshot rules handle *)

Lemma matchRule_metrics_snapshot (endpoint : string) :
  includes endpoint "/financial-metrics/snapshot/" = true ->
  includes endpoint "income-statements" = false ->
  includes endpoint "balance-sheets" = false ->
  includes endpoint "cash-flow-statements" = false ->
  includes endpoint "/segmented-revenues/" = false ->
  matchRule endpoint = RMetricsSnapshot.
Proof.
  intros Hsnap H1 H2 H3 H4.
  assert (H5 : String.eqb endpoint "/financials/" = false).
  { destruct (String.eqb_spec endpoint "/financials/") as [-> |]; [|reflexivity].
    discriminate Hsnap. }
  unfold matchRule. now rewrite H1, H2, H3, H4, H5, Hsnap.
Qed.

Lemma matchRule_prices_snapshot (endpoint : string) :
  includes endpoint "/prices/snapshot" = true ->
  claimed_before_crypto endpoint = false ->
  includes endpoint "/crypto/" = false ->
  matchRule endpoint = RPricesSnapshot.
Proof.
  unfold claimed_before_crypto. rewrite !orb_false_iff.
  intros Hsnap ((((H1 & H2) & H3) & H4) & H5) Hcrypto.
  assert (H6 : includes endpoint "/financial-metrics/snapshot/" = false).
  { destruct (includes endpoint "/financial-metrics/snapshot/") eqn:E; [|reflexivity].
    rewrite <- H5. symmetry.
    apply (includes_app_l endpoint "/financial-metrics/" "snapshot/"). exact E. }
  assert (H7 : String.eqb endpoint "/financials/" = false).
  { destruct (String.eqb_spec endpoint "/financials/") as [-> |]; [|reflexivity].
    discriminate Hsnap. }
  unfold matchRule. now rewrite H1, H2, H3, H4, H7, H6, H5, Hcrypto, Hsnap.
Qed.

Example metrics_snapshot_rule :
  matchRule "/financial-metrics/snapshot/" = RMetricsSnapshot /\
  matchRule "/prices/snapshot/" = RPricesSnapshot /\
  matchRule "/crypto/prices/snapshot/" = RCrypto.
Proof. repeat split. Qed.

(* ================================================================== *)
(** * Further properties of the adapter *)
(* ================================================================== *)

(** ** The runs of the two branches *)

Lemma bind_ret_l {A B} (a : A) (k : A -> M B) : bind (ret a) k = k a.
Proof. unfold bind, ret. now destruct (k a). Qed.

Lemma own_entries_nullish (d : Value) :
  own_entries d = None <-> nullish d = true.
Proof. destruct d; cbn; split; congruence. Qed.

(** A sub-request followed by a continuation. *)
Lemma fetch_then {B} (w : World) (key label : string) (params : Params)
    (ticker : ParamValue) (sub subKey : string)
    (extra : option (list (string * string))) (skip : bool)
    (k : ApiResponse -> M B) :
  bind (await (fetchFMP w key label params ticker sub subKey extra skip)) k
  = let req := sub_request key params ticker sub extra skip in
    match answer w req with
    | Some d =>
        let '(t', r) := k (mkApiResponse (VObject [(subKey, d)]) (resource req)) in
        (EvFetch req :: t', r)
    | None => ([EvFetch req], Throw (fmp_failure label (outcome (fetch w req))))
    end.
Proof.
  unfold fetchFMP, await, sub_request, answer, do_fetch, fmp_settle, fmp_failure.
  cbn [snd resource].
  destruct (outcome (fetch w _)) as [message | res]; cbn; [reflexivity|].
  destruct (ok res); cbn; [|reflexivity].
  destruct (json res) as [d|]; cbn; [|reflexivity].
  now destruct (k _).
Qed.

(** The run of the Primary branch, by the network's answer. *)
Lemma callPrimary_cases (w : World) (key label endpoint : string)
    (params : Params) (options : option Options) :
  URL_parses w (BASE_URL ++ endpoint) = true ->
  let req :=
    mkRequest (toString (mkURL (BASE_URL ++ endpoint) (query_entries params)))
              [("x-api-key", key)] in
  callPrimary w key label endpoint params options
  = match answer w req with
    | None => ([EvFetch req], Throw (primary_failure label (outcome (fetch w req))))
    | Some d =>
        ((EvFetch req
          :: write_back endpoint params options (mkApiResponse d (resource req)))%list,
         if nullish d then Throw TypeError
         else Ok (mkApiResponse d (resource req)))
    end.
Proof.
  intros Hparses. unfold callPrimary. rewrite Hparses.
  rewrite fold_append_param. unfold new_URL; cbn [href_base appended app].
  unfold answer, do_fetch, do_writeCache, write_back, primary_failure,
    emit, ret, throw, bind, summarizeData.
  destruct (outcome (fetch w _)) as [message | res]; cbn; [reflexivity|].
  destruct (ok res); cbn; [|reflexivity].
  destruct (json res) as [d|]; cbn; [|reflexivity].
  destruct (cacheable_set options), d; reflexivity.
Qed.

Lemma fetchFMP_eq (w : World) (key label : string) (params : Params)
    (ticker : ParamValue) (sub subKey : string)
    (extra : option (list (string * string))) (skip : bool) :
  let req := sub_request key params ticker sub extra skip in
  fetchFMP w key label params ticker sub subKey extra skip
  = (settles_at (fetch w req),
     ([EvFetch req],
      match answer w req with
      | Some d => Ok (mkApiResponse (VObject [(subKey, d)]) (resource req))
      | None => Throw (fmp_failure label (outcome (fetch w req)))
      end)).
Proof.
  cbv zeta.
  unfold fetchFMP, sub_request, answer, do_fetch, fmp_settle, fmp_failure.
  cbn [resource]. f_equal.
  destruct (outcome (fetch w _)) as [message | res]; cbn; [reflexivity|].
  destruct (ok res); cbn; [|reflexivity].
  now destruct (json res).
Qed.

Lemma filter_by_type_throws (wanted : string) (filings : list Value) (e : Exn) :
  filter_by_type wanted filings = Throw e ->
  e = TypeError /\ existsb nullish filings = true.
Proof.
  induction filings as [|f rest IH]; cbn; [discriminate|].
  destruct f; cbn;
    try (intros [= <-]; now split);
    destruct (filter_by_type wanted rest); try discriminate;
    intros [= <-]; destruct (IH eq_refl) as [-> ->]; now split.
Qed.

(** The three forms of a run of the FMP branch once a ticker is there. *)
Lemma callSecondary_cases (w : World) (endpoint : string) (params : Params)
    (options : option Options) :
  only_secondary_set w ->
  truthy (param params "ticker") = true ->
  let m := callSecondary w (env_value (env_FMP_API_KEY w))
             (describeRequest w endpoint params) endpoint params options in
  (exists msg, unsupported_msg endpoint = Some msg /\ m = ([], Throw (Error msg))) \/
  (exists reqs e, Failure w endpoint params reqs e /\
                  m = (map EvFetch reqs, Throw e)) \/
  (exists reqs resp, Success w endpoint params reqs resp /\
                     m = ((map EvFetch reqs
                           ++ write_back endpoint params options resp)%list, Ok resp)).
Proof.
  intros Hsec Hticker. cbv zeta. unfold callSecondary.
  rewrite Hticker. cbn [negb].
  set (key := env_value (env_FMP_API_KEY w)).
  set (label := describeRequest w endpoint params).
  assert (Hone : matchRule endpoint <> RFinancials ->
                 forall sub extra skip,
                   fmp_requests w endpoint params
                     [sub_request key params (param params "ticker") sub extra skip]).
  { intros Hrule sub extra skip. unfold fmp_requests, fan.
    destruct (matchRule endpoint); try congruence;
      (split; [reflexivity|]); repeat constructor; eauto. }
  assert (Hfailed : forall sub extra skip,
             matchRule endpoint <> RFinancials ->
             answer w (sub_request key params (param params "ticker") sub extra skip)
             = None ->
             Failure w endpoint params
               [sub_request key params (param params "ticker") sub extra skip]
               (fmp_failure label
                  (outcome (fetch w (sub_request key params (param params "ticker")
                                       sub extra skip))))).
  { intros sub extra skip Hrule Hans.
    apply fail_fmp with (req := sub_request key params (param params "ticker")
                                  sub extra skip); auto. now left. }
  assert (Hreturned : forall sub extra skip rkey v,
             matchRule endpoint <> RFinancials ->
             result_key (matchRule endpoint) = Some rkey ->
             answer w (sub_request key params (param params "ticker") sub extra skip)
             <> None ->
             Success w endpoint params
               [sub_request key params (param params "ticker") sub extra skip]
               (mkApiResponse (VObject [(rkey, v)])
                  (resource (sub_request key params (param params "ticker")
                               sub extra skip)))).
  { intros sub extra skip rkey v Hrule Hkey Hans.
    apply ok_fmp; auto.
    - intros req [<- | []]. exact Hans.
    - destruct (matchRule endpoint); try congruence; reflexivity. }
  destruct (matchRule endpoint) eqn:Hrule.
  (* the rules that turn the endpoint down *)
  all: try solve [left; eexists; split;
                  [unfold unsupported_msg; rewrite Hrule; reflexivity | reflexivity]].
  (* the rules that fetch once, reshape and return *)
  all: try solve [
    rewrite fetch_then; cbv zeta;
    match goal with
    | |- context [answer _ ?r] =>
        destruct (answer w r) as [d|] eqn:Hans;
        [ right; right;
          unfold returnFMP, unwrap_first, extract_historical, summarizeData,
            do_writeCache, emit, ret, bind; cbn;
          exists [r]; eexists; split;
          [ apply Hreturned; [discriminate | reflexivity | congruence]
          | unfold write_back; cbn; now destruct (cacheable_set options) ]
        | right; left; exists [r]; eexists; split;
          [ apply Hfailed; [discriminate | exact Hans] | reflexivity ] ]
    end ].
  - (* /financials/ *)
    unfold callFinancials. rewrite !fetchFMP_eq. cbv zeta.
    set (r1 := sub_request key params (param params "ticker")
                 "/income-statement" None false).
    set (r2 := sub_request key params (param params "ticker")
                 "/balance-sheet-statement" None false).
    set (r3 := sub_request key params (param params "ticker")
                 "/cash-flow-statement" None false).
    assert (Hthree : fmp_requests w endpoint params [r1; r2; r3]).
    { unfold fmp_requests, fan. rewrite Hrule. split; [reflexivity|].
      repeat constructor; unfold r1, r2, r3; eauto. }
    unfold Promise_all, bind.
    cbn [map fst snd concat app first_rejection fulfilled_values].
    destruct (answer w r1) as [d1|] eqn:A1;
    destruct (answer w r2) as [d2|] eqn:A2;
    destruct (answer w r3) as [d3|] eqn:A3;
    cbn [first_rejection fulfilled_values];
    repeat match goal with
           | |- context [(?a <? ?b)%nat] => destruct (a <? b)%nat
           end.
    1: { right; right. exists [r1; r2; r3]. eexists. split.
         - apply ok_fmp with (key := "financials"); auto.
           + intros req [<- | [<- | [<- | []]]]; congruence.
           + now rewrite Hrule.
           + now rewrite Hrule.
         - unfold summarizeData, do_writeCache, emit, ret, write_back. cbn.
           now destruct (cacheable_set options). }
    all: right; left; exists [r1; r2; r3]; eexists; (split; [|reflexivity]).
    all: first [ apply fail_fmp with (req := r1); auto; [now left]
               | apply fail_fmp with (req := r2); auto; [now right; left]
               | apply fail_fmp with (req := r3); auto; [now right; right; left] ].
  - (* /filings/ *)
    rewrite fetch_then. cbv zeta.
    set (req := sub_request key params (param params "ticker")
                  "/sec-filings-search/symbol" _ false).
    destruct (answer w req) as [d|] eqn:Hans.
    2: { right; left. exists [req]. eexists. split; [|reflexivity].
         apply Hfailed; [discriminate | exact Hans]. }
    assert (Hplain : forall v,
               (exists reqs resp,
                  Success w endpoint params reqs resp /\
                  (let '(t', r) :=
                     returnFMP endpoint params options
                       (mkApiResponse (VObject [("filings", v)]) (resource req)) in
                   (EvFetch req :: t', r))
                  = ((map EvFetch reqs
                      ++ write_back endpoint params options resp)%list, Ok resp))).
    { intros v. exists [req]. eexists. split.
      - apply Hreturned with (rkey := "filings") (v := v);
          [discriminate | reflexivity | fold req; congruence].
      - unfold returnFMP, summarizeData, do_writeCache, emit, ret, bind,
          write_back. cbn. now destruct (cacheable_set options). }
    unfold filter_filings. cbn [data url]. rewrite get_single.
    destruct (truthy (param params "filing_type")) eqn:Hft.
    2: { right; right. rewrite bind_ret_l. apply Hplain. }
    destruct d as [ | | b | n | s | filings | props ];
      try (right; right; rewrite bind_ret_l; apply Hplain).
    destruct (filter_by_type (String_ (param params "filing_type")) filings)
      as [kept|e] eqn:Hfilter.
    + right; right. rewrite bind_ret_l. apply Hplain.
    + right; left. destruct (filter_by_type_throws _ _ _ Hfilter) as [-> Hnull].
      exists [req]. eexists. split; [|reflexivity].
      apply fail_filter with (raw := filings); auto.
      apply Hone. discriminate.
Qed.

(** Every call runs in one of the six forms of [CallRun]. *)
Lemma callApi_run (w : World) (endpoint : string) (params : Params)
    (options : option Options) :
  CallRun w endpoint params options
    (fst (callApi w endpoint params options))
    (snd (callApi w endpoint params options)).
Proof.
  destruct (from_cache w endpoint params options) as [hit|] eqn:Hcache.
  { rewrite (callApi_hit _ _ _ _ _ Hcache). cbn [fst snd].
    destruct (own_entries (data hit)) eqn:Hentries.
    - apply run_hit; [exact Hcache|].
      destruct (nullish (data hit)) eqn:Hnull; [|reflexivity].
      apply own_entries_nullish in Hnull. congruence.
    - apply run_hit_null with (hit := hit); [exact Hcache|].
      now apply own_entries_nullish. }
  rewrite (callApi_miss _ _ _ _ Hcache). cbn [fst snd]. unfold backend_call.
  destruct (env_truthy (env_FINANCIAL_DATASETS_API_KEY w)) eqn:Hfd.
  { (* Primary *)
    destruct (URL_parses w (BASE_URL ++ endpoint)) eqn:Hparses.
    - rewrite (callPrimary_cases _ _ _ _ _ _ Hparses). cbv zeta.
      fold (primary_request w endpoint params).
      destruct (answer w (primary_request w endpoint params)) as [d|] eqn:Hans;
        cbn [fst snd].
      + destruct (nullish d) eqn:Hnull.
        * apply (run_null_body w endpoint params options d); auto.
        * apply (run_returned w endpoint params options
                   [primary_request w endpoint params]); [exact Hcache|].
          now apply ok_primary.
      + apply (run_failed w endpoint params options
                 [primary_request w endpoint params]); [exact Hcache|].
        now apply fail_primary.
    - unfold callPrimary. rewrite Hparses. cbn [fst snd throw].
      rewrite app_nil_r. apply run_refused; [exact Hcache|].
      now apply refuse_bad_url. }
  destruct (env_truthy (env_FMP_API_KEY w)) eqn:Hfmp.
  2: { cbn [fst snd throw]. rewrite app_nil_r.
       apply run_refused; [exact Hcache|]. now apply refuse_no_key. }
  assert (Hsec : only_secondary_set w) by now split.
  destruct (truthy (param params "ticker")) eqn:Hticker.
  2: { unfold callSecondary. rewrite Hticker. cbn [negb fst snd throw].
       rewrite app_nil_r. apply run_refused; [exact Hcache|].
       now apply refuse_no_ticker. }
  destruct (callSecondary_cases w endpoint params options Hsec Hticker)
    as [(msg & Hmsg & ->) | [(reqs & e & Hfail & ->) | (reqs & resp & Hok & ->)]];
    cbn [fst snd].
  - rewrite app_nil_r. apply run_refused; [exact Hcache|].
    now apply refuse_unsupported.
  - now apply run_failed.
  - now apply run_returned.
Qed.

(** *** Auxiliary facts on traces *)

Lemma requests_map_EvFetch (reqs : list Request) :
  requests (map EvFetch reqs) = reqs.
Proof.
  unfold requests. induction reqs as [|r reqs IH]; cbn; [reflexivity | now f_equal].
Qed.

Lemma requests_write_back (endpoint : string) (params : Params)
    (options : option Options) (resp : ApiResponse) :
  requests (write_back endpoint params options resp) = [].
Proof. unfold write_back. now destruct (cacheable_set options). Qed.

Lemma cache_writes_app (t1 t2 : list Event) :
  cache_writes (t1 ++ t2) = (cache_writes t1 + cache_writes t2)%nat.
Proof. unfold cache_writes. now rewrite filter_app, length_app. Qed.

Lemma cache_reads_app (t1 t2 : list Event) :
  cache_reads (t1 ++ t2) = (cache_reads t1 + cache_reads t2)%nat.
Proof. unfold cache_reads. now rewrite filter_app, length_app. Qed.

Lemma cache_events_fetches (reqs : list Request) :
  cache_reads (map EvFetch reqs) = 0%nat /\ cache_writes (map EvFetch reqs) = 0%nat.
Proof. induction reqs as [|r reqs IH]; cbn; [now split | exact IH]. Qed.

Lemma from_cache_cacheable (w : World) (endpoint : string) (params : Params)
    (options : option Options) (hit : ApiResponse) :
  from_cache w endpoint params options = Some hit ->
  cacheable_set options = true.
Proof. unfold from_cache. now destruct (cacheable_set options). Qed.

Lemma Failure_requests (w : World) (endpoint : string) (params : Params)
    (reqs : list Request) (e : Exn) :
  Failure w endpoint params reqs e ->
  reqs <> [] /\
  (List.length reqs = 1%nat \/
   List.length reqs = 3%nat /\ matchRule endpoint = RFinancials /\
   only_secondary_set w).
Proof.
  destruct 1 as [ | reqs req Hsec [Hlen _] Hin _ | req raw ];
    try (split; [discriminate | now left]).
  split; [now destruct reqs|].
  unfold fan in Hlen. destruct (matchRule endpoint); auto.
Qed.

Lemma Success_requests (w : World) (endpoint : string) (params : Params)
    (reqs : list Request) (resp : ApiResponse) :
  Success w endpoint params reqs resp ->
  reqs <> [] /\
  (List.length reqs = 1%nat \/
   List.length reqs = 3%nat /\ matchRule endpoint = RFinancials /\
   only_secondary_set w).
Proof.
  destruct 1 as [ | reqs key v u Hsec [Hlen _] _ _ _ ];
    [split; [discriminate | now left]|].
  unfold fan in Hlen.
  split; [destruct reqs; [destruct (matchRule endpoint)|]; discriminate|].
  destruct (matchRule endpoint); auto.
Qed.

Lemma matchRule_financials (endpoint : string) :
  matchRule endpoint = RFinancials -> endpoint = "/financials/".
Proof.
  unfold matchRule.
  repeat match goal with
         | |- (if String.eqb endpoint "/financials/" then _ else _) = _ -> _ =>
             destruct (String.eqb_spec endpoint "/financials/") as [-> |];
             [reflexivity|]
         | |- (if ?c then _ else _) = _ -> _ => destruct c; [discriminate|]
         end.
  discriminate.
Qed.

Lemma in_write_probe_fetches (endpoint : string) (params : Params)
    (options : option Options) (reqs : list Request) (tail : list Event)
    (e' : string) (p' : Params) (d : Value) (u : UrlText) :
  In (EvWriteCache e' p' d u)
     (cache_probe endpoint params options ++ map EvFetch reqs ++ tail) ->
  In (EvWriteCache e' p' d u) tail.
Proof.
  rewrite !in_app_iff. intros [H | [H | H]]; [| |exact H]; exfalso.
  - unfold cache_probe in H. destruct (cacheable_set options); cbn in H;
      [destruct H as [H | []]; discriminate | destruct H].
  - apply in_map_iff in H. destruct H as (r & Hr & _). discriminate.
Qed.

Lemma cache_writes_probe (endpoint : string) (params : Params)
    (options : option Options) :
  cache_writes (cache_probe endpoint params options) = 0%nat.
Proof. unfold cache_probe. now destruct (cacheable_set options). Qed.

(** ** The cache around a call *)

(** X1. A cacheable call whose key the cache holds (with data other
    than [null]) returns the cached response as it is, after that one
    cache read and nothing else: whatever the endpoint, the ticker and
    the credentials. *)
Theorem cache_hit_is_returned (w : World) (endpoint : string) (params : Params)
    (options : option Options) (hit : ApiResponse) :
  from_cache w endpoint params options = Some hit ->
  nullish (data hit) = false ->
  callApi w endpoint params options = ([EvReadCache endpoint params], Ok hit).
Proof.
  intros Hcache Hnull. rewrite (callApi_hit _ _ _ _ _ Hcache).
  destruct (own_entries (data hit)) eqn:Hentries; [reflexivity|].
  apply own_entries_nullish in Hentries. congruence.
Qed.

Lemma cache_hit_is_returned_witness :
  callApi world_no_key_cached "/some/unsupported/endpoint/" [] cache_on
  = ([EvReadCache "/some/unsupported/endpoint/" []], Ok stored).
Proof.
  apply (cache_hit_is_returned world_no_key_cached "/some/unsupported/endpoint/"
           [] cache_on stored); reflexivity.
Defined.

(** The shape of the trace of a call. *)
Lemma callApi_trace_shape (w : World) (endpoint : string) (params : Params)
    (options : option Options) :
  exists reqs tail,
    fst (callApi w endpoint params options)
    = (cache_probe endpoint params options ++ map EvFetch reqs ++ tail)%list /\
    (tail = [] \/
     reqs <> [] /\ cacheable_set options = true /\
     exists d u, tail = [EvWriteCache endpoint params d u]).
Proof.
  destruct (callApi_run w endpoint params options)
    as [ hit Hcache _ | hit Hcache _ | e _ _ | reqs e _ Hfail
       | reqs resp _ Hok | d _ _ _ _ ].
  - exists [], []. unfold cache_probe.
    rewrite (from_cache_cacheable _ _ _ _ _ Hcache). auto.
  - exists [], []. unfold cache_probe.
    rewrite (from_cache_cacheable _ _ _ _ _ Hcache). auto.
  - exists [], []. rewrite app_nil_r. auto.
  - exists reqs, []. rewrite app_nil_r. auto.
  - exists reqs, (write_back endpoint params options resp). split; [reflexivity|].
    unfold write_back. destruct (cacheable_set options); [right | now left].
    split; [apply (Success_requests _ _ _ _ _ Hok)|]. eauto.
  - eexists [_], _. split; [reflexivity|].
    unfold write_back. destruct (cacheable_set options); [right | now left].
    split; [discriminate|]. eauto.
Qed.

(** X2. The effects of a call come in a fixed order: the cache read, if
    the call is cacheable, then the network requests, then at most one
    cache write, which occurs only in a cacheable call and only after a
    request. *)
Theorem trace_order (w : World) (endpoint : string) (params : Params)
    (options : option Options) :
  exists reqs tail,
    fst (callApi w endpoint params options)
    = (cache_probe endpoint params options ++ map EvFetch reqs ++ tail)%list /\
    (tail = [] \/
     reqs <> [] /\ cacheable_set options = true /\
     exists d u, tail = [EvWriteCache endpoint params d u]).
Proof. exact (callApi_trace_shape w endpoint params options). Qed.

(** Without the cacheable mark, no cache event. *)
Lemma callApi_no_cache_access (w : World) (endpoint : string)
    (params : Params) (options : option Options) :
  cacheable_set options = false ->
  cache_reads (fst (callApi w endpoint params options)) = 0%nat /\
  cache_writes (fst (callApi w endpoint params options)) = 0%nat.
Proof.
  intros Hoff.
  destruct (callApi_trace_shape w endpoint params options) as (reqs & tail & -> & Htail).
  destruct Htail as [-> | (_ & Hon & _)]; [|congruence].
  unfold cache_probe. rewrite Hoff, app_nil_r. cbn [app].
  apply cache_events_fetches.
Qed.

(** X3. A call that is not marked cacheable never touches the cache:
    it neither reads nor writes it, whatever the backend answers. *)
Theorem not_cacheable_no_cache_access (w : World) (endpoint : string)
    (params : Params) (options : option Options) :
  cacheable_set options = false ->
  cache_reads (fst (callApi w endpoint params options)) = 0%nat /\
  cache_writes (fst (callApi w endpoint params options)) = 0%nat.
Proof. apply callApi_no_cache_access. Qed.

Lemma not_cacheable_no_cache_access_witness :
  cache_reads (fst (callApi (world_fmp income_rows) "/financials/" aapl None)) = 0%nat /\
  cache_writes (fst (callApi (world_fmp income_rows) "/financials/" aapl None)) = 0%nat.
Proof.
  apply (not_cacheable_no_cache_access (world_fmp income_rows) "/financials/" aapl None).
  reflexivity.
Defined.

(** X4. Whatever a call writes to the cache, it writes once, under its
    own endpoint and parameters, after at least one request, and it is
    the response that the call returns; the one exception is a Primary
    body [null], which is written before the call fails on it. *)
Theorem cache_write_is_response (w : World) (endpoint : string) (params : Params)
    (options : option Options) (e' : string) (p' : Params) (d : Value)
    (u : UrlText) :
  In (EvWriteCache e' p' d u) (fst (callApi w endpoint params options)) ->
  e' = endpoint /\ p' = params /\
  cacheable_set options = true /\
  cache_writes (fst (callApi w endpoint params options)) = 1%nat /\
  requests (fst (callApi w endpoint params options)) <> [] /\
  (snd (callApi w endpoint params options) = Ok (mkApiResponse d u) \/
   primary_set w /\ nullish d = true /\
   snd (callApi w endpoint params options) = Throw TypeError).
Proof.
  destruct (callApi_run w endpoint params options)
    as [ hit Hcache _ | hit Hcache _ | e _ _ | reqs e _ Hfail
       | reqs resp _ Hok | d0 _ Hfd Hans Hnull ].
  - intros [H | []]. discriminate.
  - intros [H | []]. discriminate.
  - intros H. rewrite <- (app_nil_r (cache_probe _ _ _)) in H.
    change (@nil Event) with (map EvFetch [] ++ [])%list in H.
    apply in_write_probe_fetches in H. destruct H.
  - intros H. rewrite <- (app_nil_r (map EvFetch reqs)) in H.
    apply in_write_probe_fetches in H. destruct H.
  - intros H. pose proof (in_write_probe_fetches _ _ _ _ _ _ _ _ _ H) as Hw.
    unfold write_back in *. destruct (cacheable_set options) eqn:Hon; [|destruct Hw].
    destruct Hw as [[= <- <- <- <-] | []].
    repeat split.
    + rewrite !cache_writes_app, cache_writes_probe.
      now rewrite (proj2 (cache_events_fetches reqs)).
    + rewrite !requests_app, requests_cache_probe, requests_map_EvFetch. cbn.
      rewrite app_nil_r. apply (Success_requests _ _ _ _ _ Hok).
    + left. now destruct resp.
  - intros H. pose proof (in_write_probe_fetches _ _ _ [_] _ _ _ _ _ H) as Hw.
    unfold write_back in *. destruct (cacheable_set options) eqn:Hon; [|destruct Hw].
    destruct Hw as [[= <- <- <- <-] | []].
    repeat split.
    + rewrite !cache_writes_app, cache_writes_probe. reflexivity.
    + rewrite !requests_app, requests_cache_probe. discriminate.
    + right. auto.
Qed.

Lemma cache_write_is_response_witness :
  snd (callApi (world_fmp income_rows) "/financials/income-statements/" aapl cache_on)
  = Ok (mkApiResponse (VObject [("income_statements", income_rows)])
          (fmp "/income-statement" [("symbol", "AAPL"); ("apikey", "fmp-key")])).
Proof.
  destruct (cache_write_is_response (world_fmp income_rows)
              "/financials/income-statements/" aapl cache_on
              "/financials/income-statements/" aapl
              (VObject [("income_statements", income_rows)])
              (fmp "/income-statement" [("symbol", "AAPL"); ("apikey", "fmp-key")]))
    as (_ & _ & _ & _ & _ & [H | (H & _)]).
  - right; right; left; reflexivity.
  - exact H.
  - discriminate H.
Defined.

(** X5. A cacheable call that a backend answers successfully persists
    exactly the response it returns, as its last effect, after the cache
    read and the requests. *)
Theorem cacheable_success_is_persisted (w : World) (endpoint : string)
    (params : Params) (options : option Options) (resp : ApiResponse) :
  cacheable_set options = true ->
  from_cache w endpoint params options = None ->
  snd (callApi w endpoint params options) = Ok resp ->
  exists reqs, reqs <> [] /\
    fst (callApi w endpoint params options)
    = (EvReadCache endpoint params :: map EvFetch reqs
       ++ [EvWriteCache endpoint params (data resp) (url resp)])%list.
Proof.
  intros Hon Hmiss.
  destruct (callApi_run w endpoint params options)
    as [ hit Hcache _ | hit Hcache _ | e _ _ | reqs e _ Hfail
       | reqs resp' _ Hok | d0 _ Hfd Hans Hnull ]; try congruence; try discriminate.
  intros [= ->]. exists reqs. split; [apply (Success_requests _ _ _ _ _ Hok)|].
  unfold cache_probe, write_back. now rewrite Hon.
Qed.

Lemma cacheable_success_is_persisted_witness :
  exists reqs, reqs <> [] /\
    fst (callApi (world_fmp income_rows) "/financials/income-statements/" aapl cache_on)
    = (EvReadCache "/financials/income-statements/" aapl :: map EvFetch reqs
       ++ [EvWriteCache "/financials/income-statements/" aapl
             (VObject [("income_statements", income_rows)])
             (fmp "/income-statement" [("symbol", "AAPL"); ("apikey", "fmp-key")])])%list.
Proof.
  apply (cacheable_success_is_persisted (world_fmp income_rows)
           "/financials/income-statements/" aapl cache_on
           (mkApiResponse (VObject [("income_statements", income_rows)])
              (fmp "/income-statement" [("symbol", "AAPL"); ("apikey", "fmp-key")])));
    reflexivity.
Defined.

(** X6. A call issues at most one network request, except the
    aggregated [/financials/] call on the FMP backend, which issues
    three: there is no retry and no second backend. *)
Theorem request_count (w : World) (endpoint : string) (params : Params)
    (options : option Options) :
  (network_calls (fst (callApi w endpoint params options)) <= 1)%nat \/
  network_calls (fst (callApi w endpoint params options)) = 3%nat /\
  endpoint = "/financials/" /\ only_secondary_set w.
Proof.
  unfold network_calls.
  destruct (callApi_run w endpoint params options)
    as [ hit Hcache _ | hit Hcache _ | e _ _ | reqs e _ Hfail
       | reqs resp _ Hok | d0 _ Hfd Hans Hnull ];
    rewrite ?requests_app, ?requests_cache_probe, ?requests_map_EvFetch,
      ?requests_write_back, ?app_nil_r; cbn [app requests flat_map List.length];
    try (left; lia).
  - destruct (Failure_requests _ _ _ _ _ Hfail) as [_ [-> | (-> & Hrule & Hsec)]];
      [left; lia | right].
    auto using matchRule_financials.
  - destruct (Success_requests _ _ _ _ _ Hok) as [_ [-> | (-> & Hrule & Hsec)]];
      [left; lia | right].
    auto using matchRule_financials.
Qed.

(** Returned data is not nullish. *)
Lemma callApi_data_not_null (w : World) (endpoint : string) (params : Params)
    (options : option Options) (resp : ApiResponse) :
  snd (callApi w endpoint params options) = Ok resp ->
  nullish (data resp) = false.
Proof.
  destruct (callApi_run w endpoint params options)
    as [ hit Hcache Hnull | hit Hcache _ | e _ _ | reqs e _ Hfail
       | reqs resp' _ Hok | d0 _ Hfd Hans Hnull ]; try discriminate.
  - now intros [= <-].
  - intros [= <-]. destruct Hok; [assumption | reflexivity].
Qed.

(** X7. The data of a response that [callApi] returns is never [null]
    or [undefined], whether it comes from the cache or from a backend. *)
Theorem returned_data_not_null (w : World) (endpoint : string) (params : Params)
    (options : option Options) (resp : ApiResponse) :
  snd (callApi w endpoint params options) = Ok resp ->
  nullish (data resp) = false.
Proof. apply callApi_data_not_null. Qed.

Lemma returned_data_not_null_witness :
  nullish (data stored) = false.
Proof.
  apply (returned_data_not_null world_no_key_cached "/prices/" aapl cache_on stored).
  reflexivity.
Defined.

(** ** Failures *)

Lemma prefix_app_self (s b : string) : prefix s (s ++ b) = true.
Proof.
  induction s as [|c s IH]; cbn; [now destruct b|].
  destruct (Ascii.ascii_dec c c); [exact IH | congruence].
Qed.

Lemma includes_middle (a s b : string) : includes (a ++ s ++ b) s = true.
Proof.
  induction a as [|c a IH].
  - cbn [String.append]. destruct (s ++ b) eqn:E; cbn [includes];
      rewrite <- E, prefix_app_self; reflexivity.
  - cbn [String.append includes]. rewrite IH. apply orb_true_r.
Qed.

Lemma fmp_failure_prefix (label : string) (o : FetchOutcome) :
  exists msg, fmp_failure label o = Error msg /\
              prefix "FMP API request failed" msg = true.
Proof.
  unfold fmp_failure. destruct o as [m | res]; [|destruct (ok res)];
    eexists; split; reflexivity.
Qed.

Lemma answer_some (w : World) (req : Request) :
  answer w req <> None ->
  exists res, outcome (fetch w req) = Resolved res /\ ok res = true /\
              json res <> None.
Proof.
  unfold answer. destruct (outcome (fetch w req)) as [m | res]; [congruence|].
  destruct (ok res) eqn:Hok; [|congruence]. eauto.
Qed.

(** X8. On the Primary backend a request that the network does not
    answer successfully fails the call after that single request,
    nothing being written to the cache: a transport failure with a
    message that carries the request label and the cause, a non-success
    status or an unparseable body with a message that carries the status
    code and text. *)
Theorem primary_failures (w : World) (endpoint : string) (params : Params)
    (options : option Options) :
  primary_set w ->
  from_cache w endpoint params options = None ->
  URL_parses w (BASE_URL ++ endpoint) = true ->
  answer w (primary_request w endpoint params) = None ->
  let label := describeRequest w endpoint params in
  let sent := outcome (fetch w (primary_request w endpoint params)) in
  let '(t, r) := callApi w endpoint params options in
  t = (cache_probe endpoint params options
       ++ [EvFetch (primary_request w endpoint params)])%list /\
  (forall cause, sent = Rejected cause ->
     r = Throw (Error ("API request failed for " ++ label ++ ": " ++ cause))) /\
  (forall res, sent = Resolved res -> ok res = false ->
     r = Throw (Error ("API request failed: " ++ String_of_Z (status res)
                       ++ " " ++ statusText res))) /\
  (forall res, sent = Resolved res -> ok res = true ->
     r = Throw (Error ("API request failed: invalid JSON ("
                       ++ String_of_Z (status res) ++ " " ++ statusText res ++ ")"))).
Proof.
  intros Hfd Hmiss Hparses Hans. red in Hfd. cbv zeta.
  rewrite (callApi_miss _ _ _ _ Hmiss). unfold backend_call. rewrite Hfd.
  rewrite (callPrimary_cases _ _ _ _ _ _ Hparses). cbv zeta.
  fold (primary_request w endpoint params). rewrite Hans. cbn [fst snd].
  split; [reflexivity|]. unfold primary_failure.
  repeat split.
  - now intros cause ->.
  - now intros res -> ->.
  - now intros res -> ->.
Qed.

(** X9. On the Primary backend a body that parses to [null] makes the
    call fail with a [TypeError], and a cacheable call has by then
    written that [null] to the cache. *)
Theorem primary_null_body (w : World) (endpoint : string) (params : Params)
    (options : option Options) (d : Value) :
  primary_set w ->
  from_cache w endpoint params options = None ->
  URL_parses w (BASE_URL ++ endpoint) = true ->
  answer w (primary_request w endpoint params) = Some d ->
  nullish d = true ->
  callApi w endpoint params options
  = ((cache_probe endpoint params options
      ++ EvFetch (primary_request w endpoint params)
         :: (if cacheable_set options
             then [EvWriteCache endpoint params d
                     (resource (primary_request w endpoint params))]
             else []))%list,
     Throw TypeError).
Proof.
  intros Hfd Hmiss Hparses Hans Hnull. red in Hfd.
  rewrite (callApi_miss _ _ _ _ Hmiss). unfold backend_call. rewrite Hfd.
  rewrite (callPrimary_cases _ _ _ _ _ _ Hparses). cbv zeta.
  fold (primary_request w endpoint params). rewrite Hans, Hnull.
  reflexivity.
Qed.

(** X10. On the FMP backend a call that fails has written nothing to
    the cache, and its exception is one of: [MissingTicker]; one of the
    three messages that turn an endpoint down; a message that begins
    with "FMP API request failed"; or a [TypeError], which only the
    type filter of [/filings/] raises. *)
Theorem fmp_failures (w : World) (endpoint : string) (params : Params)
    (options : option Options) (e : Exn) :
  only_secondary_set w ->
  from_cache w endpoint params options = None ->
  snd (callApi w endpoint params options) = Throw e ->
  cache_writes (fst (callApi w endpoint params options)) = 0%nat /\
  (e = MissingTicker \/
   e = Error crypto_msg \/
   e = Error filings_items_msg \/
   e = Error ("Endpoint " ++ endpoint ++ " not supported by FMP adapter yet") \/
   (exists msg, e = Error msg /\ prefix "FMP API request failed" msg = true) \/
   (e = TypeError /\ matchRule endpoint = RFilings /\
    truthy (param params "filing_type") = true)).
Proof.
  intros [Hfd Hfmp] Hmiss. red in Hfmp.
  destruct (callApi_run w endpoint params options)
    as [ hit Hcache _ | hit Hcache _ | e' _ Href | reqs e' _ Hfail
       | reqs resp _ Hok | d0 _ Hprim _ _ ];
    try congruence; try discriminate.
  - intros [= ->]. split; [apply cache_writes_probe|].
    destruct Href as [[_ Hno] | Hprim _ | _ _ | msg _ _ Hmsg].
    + congruence.
    + red in Hprim. congruence.
    + now left.
    + unfold unsupported_msg in Hmsg.
      destruct (matchRule endpoint); try discriminate;
        injection Hmsg as <-; auto.
  - intros [= ->]. split.
    { rewrite cache_writes_app, cache_writes_probe.
      apply cache_events_fetches. }
    destruct Hfail as [Hprim _ | reqs req _ _ _ _ | req raw _ _ Hrule Hft _ _].
    + red in Hprim. congruence.
    + do 4 right. left. apply fmp_failure_prefix.
    + do 5 right. auto.
Qed.

(** X11. On the FMP backend, for an endpoint other than [/financials/],
    the one sub-request that fails decides the exception: a transport
    failure gives the label and the cause, a non-success status gives the
    status code alone, an unparseable body gives status code and text;
    there is no second attempt. *)
Theorem fmp_request_failures (w : World) (endpoint : string) (params : Params)
    (options : option Options) (req : Request) :
  only_secondary_set w ->
  matchRule endpoint <> RFinancials ->
  In req (requests (fst (callApi w endpoint params options))) ->
  answer w req = None ->
  let label := describeRequest w endpoint params in
  let r := snd (callApi w endpoint params options) in
  requests (fst (callApi w endpoint params options)) = [req] /\
  (forall cause, outcome (fetch w req) = Rejected cause ->
     r = Throw (Error ("FMP API request failed for " ++ label ++ ": " ++ cause))) /\
  (forall res, outcome (fetch w req) = Resolved res -> ok res = false ->
     r = Throw (Error ("FMP API request failed: " ++ String_of_Z (status res)))) /\
  (forall res, outcome (fetch w req) = Resolved res -> ok res = true ->
     r = Throw (Error ("FMP API request failed: invalid JSON ("
                       ++ String_of_Z (status res) ++ " " ++ statusText res ++ ")"))).
Proof.
  intros [Hfd Hfmp] Hrule. red in Hfmp. cbv zeta.
  assert (Hone : forall reqs, fmp_requests w endpoint params reqs ->
                 In req reqs -> reqs = [req]).
  { intros reqs [Hlen _] Hin. unfold fan in Hlen.
    destruct reqs as [|r0 [|r1 reqs]];
      [destruct Hin | destruct Hin as [-> | []]; reflexivity|].
    destruct (matchRule endpoint); try discriminate. congruence. }
  destruct (callApi_run w endpoint params options)
    as [ hit Hcache _ | hit Hcache _ | e' _ Href | reqs e' _ Hfail
       | reqs resp _ Hok | d0 _ Hprim _ _ ];
    rewrite ?requests_app, ?requests_cache_probe, ?requests_map_EvFetch,
      ?requests_write_back, ?app_nil_r; cbn [app requests flat_map];
    try (intros []; fail).
  - intros Hin Hans.
    destruct Hfail as [Hprim _ | reqs req' _ Hreqs Hin' Hans'
                      | req' raw _ Hreqs _ _ Hans' _].
    + red in Hprim. congruence.
    + rewrite (Hone _ Hreqs Hin) in *. destruct Hin' as [<- | []].
      split; [reflexivity|]. unfold fmp_failure. repeat split.
      * now intros cause ->.
      * now intros res -> ->.
      * now intros res -> ->.
    + destruct Hin as [<- | []]. congruence.
  - intros Hin Hans. exfalso.
    destruct Hok as [d Hprim _ _ | reqs key v u _ _ Hall _ _].
    + red in Hprim. congruence.
    + now apply (Hall req).
  - red in Hprim. congruence.
Qed.

(** X12. On the FMP backend, with a ticker, an endpoint that no rule
    matches is turned down before any request, with a message that
    contains the endpoint. *)
Theorem unsupported_endpoint (w : World) (endpoint : string) (params : Params)
    (options : option Options) :
  only_secondary_set w ->
  from_cache w endpoint params options = None ->
  truthy (param params "ticker") = true ->
  matchRule endpoint = RUnsupported ->
  let msg := "Endpoint " ++ endpoint ++ " not supported by FMP adapter yet" in
  callApi w endpoint params options
  = (cache_probe endpoint params options, Throw (Error msg)) /\
  includes msg endpoint = true.
Proof.
  intros [Hfd Hfmp] Hmiss Hticker Hrule. red in Hfmp. cbv zeta.
  rewrite (callApi_miss _ _ _ _ Hmiss). unfold backend_call.
  rewrite Hfd, Hfmp. unfold callSecondary. rewrite Hticker, Hrule.
  cbn [negb fst snd throw]. rewrite app_nil_r.
  split; [reflexivity|].
  apply (includes_middle "Endpoint " endpoint " not supported by FMP adapter yet").
Qed.

Lemma primary_failures_witness :
  let '(t, r) := callApi (world_fd (http_error 500 "Internal Server Error"))
                   "/prices/" aapl cache_on in
  t = [EvReadCache "/prices/" aapl;
       EvFetch (primary_request (world_fd (http_error 500 "Internal Server Error"))
                  "/prices/" aapl)] /\
  r = Throw (Error "API request failed: 500 Internal Server Error").
Proof.
  pose proof (primary_failures (world_fd (http_error 500 "Internal Server Error"))
                "/prices/" aapl cache_on eq_refl eq_refl eq_refl eq_refl) as H.
  cbv zeta in H.
  destruct (callApi (world_fd (http_error 500 "Internal Server Error"))
              "/prices/" aapl cache_on) as [t r].
  destruct H as (Ht & _ & Hstatus & _). split; [exact Ht|].
  exact (Hstatus _ eq_refl eq_refl).
Defined.

Lemma primary_null_body_witness :
  callApi (world_fd (fun _ => json_ok VNull)) "/prices/" aapl cache_on
  = ([EvReadCache "/prices/" aapl;
      EvFetch (primary_request (world_fd (fun _ => json_ok VNull)) "/prices/" aapl);
      EvWriteCache "/prices/" aapl VNull
        (resource (primary_request (world_fd (fun _ => json_ok VNull))
                     "/prices/" aapl))],
     Throw TypeError).
Proof.
  apply (primary_null_body (world_fd (fun _ => json_ok VNull)) "/prices/" aapl
           cache_on VNull); reflexivity.
Defined.

Lemma fmp_failures_witness :
  cache_writes (fst (callApi (world_statements refusing_network) "/financials/"
                       aapl cache_on)) = 0%nat.
Proof.
  apply (fmp_failures (world_statements refusing_network) "/financials/" aapl
           cache_on (Error "FMP API request failed: 401")).
  - split; reflexivity.
  - reflexivity.
  - reflexivity.
Defined.

Lemma fmp_request_failures_witness :
  snd (callApi (world_statements (http_error 404 "Not Found")) "/prices/" aapl None)
  = Throw (Error "FMP API request failed: 404").
Proof.
  destruct (fmp_request_failures (world_statements (http_error 404 "Not Found"))
              "/prices/" aapl None
              (mkRequest (fmp "/historical-price-eod/full"
                            [("symbol", "AAPL"); ("apikey", "fmp-key")]) []))
    as (_ & _ & Hstatus & _).
  - split; reflexivity.
  - discriminate.
  - left; reflexivity.
  - reflexivity.
  - exact (Hstatus _ eq_refl eq_refl).
Defined.

Lemma unsupported_endpoint_witness :
  callApi (world_fmp (VArray [])) "/some/unsupported/endpoint/" aapl None
  = ([], Throw (Error "Endpoint /some/unsupported/endpoint/ not supported by FMP adapter yet")).
Proof.
  apply (unsupported_endpoint (world_fmp (VArray [])) "/some/unsupported/endpoint/"
           aapl None); try reflexivity.
  split; reflexivity.
Defined.

(** ** What the FMP branch sends and returns *)

Lemma callApi_secondary (w : World) (endpoint : string) (params : Params)
    (options : option Options) :
  only_secondary_set w ->
  from_cache w endpoint params options = None ->
  callApi w endpoint params options
  = ((cache_probe endpoint params options
      ++ fst (callSecondary w (env_value (env_FMP_API_KEY w))
                (describeRequest w endpoint params) endpoint params options))%list,
     snd (callSecondary w (env_value (env_FMP_API_KEY w))
            (describeRequest w endpoint params) endpoint params options)).
Proof.
  intros [Hfd Hfmp] Hmiss. red in Hfmp.
  rewrite (callApi_miss _ _ _ _ Hmiss). unfold backend_call.
  now rewrite Hfd, Hfmp.
Qed.

(** A request of the FMP branch presupposes a cache miss and a ticker. *)
Lemma secondary_request_inv (w : World) (endpoint : string) (params : Params)
    (options : option Options) (req : Request) :
  only_secondary_set w ->
  In req (requests (fst (callApi w endpoint params options))) ->
  from_cache w endpoint params options = None /\
  truthy (param params "ticker") = true.
Proof.
  intros Hsec Hin.
  destruct (from_cache w endpoint params options) as [hit|] eqn:Hcache.
  { rewrite (callApi_hit _ _ _ _ _ Hcache) in Hin. destruct Hin. }
  split; [reflexivity|].
  rewrite (callApi_secondary _ _ _ _ Hsec Hcache) in Hin. cbn [fst] in Hin.
  rewrite requests_app, requests_cache_probe in Hin. cbn [app] in Hin.
  unfold callSecondary in Hin.
  destruct (truthy (param params "ticker")); [reflexivity | destruct Hin].
Qed.

(** X13. The data of a response that the FMP backend produced is an
    object with exactly one key, the one that the rule of the endpoint
    fixes. *)
Theorem fmp_result_key (w : World) (endpoint : string) (params : Params)
    (options : option Options) (resp : ApiResponse) :
  only_secondary_set w ->
  from_cache w endpoint params options = None ->
  snd (callApi w endpoint params options) = Ok resp ->
  exists key v,
    result_key (matchRule endpoint) = Some key /\
    data resp = VObject [(key, v)].
Proof.
  intros [Hfd Hfmp] Hmiss.
  destruct (callApi_run w endpoint params options)
    as [ hit Hcache _ | hit Hcache _ | e' _ Href | reqs e' _ Hfail
       | reqs resp' _ Hok | d0 _ Hprim _ _ ];
    try congruence; try discriminate; try (red in Hprim; congruence).
  intros [= <-].
  destruct Hok as [d Hprim _ _ | reqs key v u _ _ _ Hkey _].
  - red in Hprim. congruence.
  - exists key, v. now split.
Qed.

(** X14. The [url] of a response that a backend produced is the address
    of the one request that the call issued; only the aggregated
    [/financials/] response of the FMP backend carries a placeholder
    instead. *)
Theorem response_url_is_fetched (w : World) (endpoint : string) (params : Params)
    (options : option Options) (resp : ApiResponse) :
  from_cache w endpoint params options = None ->
  snd (callApi w endpoint params options) = Ok resp ->
  (exists req,
     requests (fst (callApi w endpoint params options)) = [req] /\
     url resp = resource req) \/
  (only_secondary_set w /\ endpoint = "/financials/" /\
   url resp = literal "https://financialmodelingprep.com/stable/(aggregated)").
Proof.
  intros Hmiss.
  destruct (callApi_run w endpoint params options)
    as [ hit Hcache _ | hit Hcache _ | e' _ Href | reqs e' _ Hfail
       | reqs resp' _ Hok | d0 _ Hprim _ _ ];
    try congruence; try discriminate.
  intros [= <-].
  rewrite !requests_app, requests_cache_probe, requests_map_EvFetch,
    requests_write_back, app_nil_r. cbn [app].
  destruct Hok as [d Hprim _ _ | reqs key v u Hsec _ _ _ Hurl].
  - left. eauto.
  - destruct (matchRule endpoint) eqn:Hrule;
      try (left; destruct reqs as [|r0 [|r1 reqs]]; try discriminate;
           injection Hurl as <-; eauto; fail).
    right. subst u. auto using matchRule_financials.
Qed.

Lemma sub_request_shaped (w : World) (params : Params) (ticker : ParamValue)
    (sub : string) (extra : option (list (string * string))) (skip : bool) :
  (forall e, extra = Some e -> getAll (mkURL "" e) "apikey" = []) ->
  fmp_shaped w (sub_request (env_value (env_FMP_API_KEY w)) params ticker
                  sub extra skip).
Proof.
  intros Hextra. unfold fmp_shaped, sub_request. cbn [headers resource].
  split; [reflexivity|]. eexists; split; [reflexivity|].
  rewrite fmp_url_entries. cbn [href_base]. split; [apply prefix_app_self|].
  assert (He : getAll (mkURL "" match extra with Some e => e | None => [] end)
                 "apikey" = [])
    by (destruct extra as [e|]; [now apply Hextra | reflexivity]).
  unfold getAll in *. cbn [appended] in *.
  rewrite !filter_app, !map_app, He.
  destruct skip, (truthy (param params "limit")),
    (strict_eq_string (param params "period") "quarterly"); reflexivity.
Qed.

(** X15. Every request of the FMP branch goes to an address under the
    FMP base, without any header, and carries the FMP credential as its
    one [apikey] query entry. *)
Theorem fmp_requests_shape (w : World) (endpoint : string) (params : Params)
    (options : option Options) :
  only_secondary_set w ->
  issues (fmp_shaped w) (callApi w endpoint params options).
Proof.
  intros Hsec req Hin.
  destruct (secondary_request_inv _ _ _ _ _ Hsec Hin) as [Hmiss _].
  rewrite (callApi_secondary _ _ _ _ Hsec Hmiss) in Hin. cbn [fst] in Hin.
  rewrite requests_app, requests_cache_probe in Hin. cbn [app] in Hin.
  revert req Hin. apply callSecondary_issues.
  intros sub extra skip Hextra. apply sub_request_shaped.
  intros e ->.
  destruct Hextra as [H | [H | [H | H]]]; try discriminate;
    injection H as ->; unfold date_range;
    destruct (truthy (param params "start_date")),
      (truthy (param params "end_date")); reflexivity.
Qed.

Lemma fmp_result_key_witness :
  exists key v,
    result_key (matchRule "/prices/snapshot/") = Some key /\
    VObject [("snapshot", VObject [("symbol", VString "AAPL"); ("price", VNumber (Number_of_Z 185))])]
    = VObject [(key, v)].
Proof.
  apply (fmp_result_key (world_fmp quote_body) "/prices/snapshot/" aapl None
           (mkApiResponse
              (VObject [("snapshot",
                         VObject [("symbol", VString "AAPL"); ("price", VNumber (Number_of_Z 185))])])
              (fmp "/quote" [("symbol", "AAPL"); ("apikey", "fmp-key")]))).
  - split; reflexivity.
  - reflexivity.
  - reflexivity.
Defined.

Lemma response_url_is_fetched_witness :
  (exists req,
     requests (fst (callApi world_primary "/prices/" aapl None)) = [req] /\
     toString (mkURL "https://api.financialdatasets.ai/prices/" [("ticker", "AAPL")])
     = resource req) \/
  (only_secondary_set world_primary /\ "/prices/" = "/financials/" /\
   toString (mkURL "https://api.financialdatasets.ai/prices/" [("ticker", "AAPL")])
   = literal "https://financialmodelingprep.com/stable/(aggregated)").
Proof.
  apply (response_url_is_fetched world_primary "/prices/" aapl None
           (mkApiResponse income_body
              (toString (mkURL "https://api.financialdatasets.ai/prices/"
                           [("ticker", "AAPL")])))); reflexivity.
Defined.

Lemma fmp_requests_shape_witness :
  fmp_shaped (world_fmp (VArray []))
    (mkRequest (fmp "/news/stock"
                  [("apikey", "fmp-key"); ("limit", "10"); ("symbols", "AAPL")]) []).
Proof.
  apply (fmp_requests_shape (world_fmp (VArray [])) "/news/"
           [("ticker", PString "AAPL"); ("limit", PNumber (Number_of_Z 10))] None).
  - split; reflexivity.
  - left; reflexivity.
Defined.

(** *** The requests and the answers, rule by rule *)

Lemma requests_returnFMP (endpoint : string) (params : Params)
    (options : option Options) (result : ApiResponse) :
  requests (fst (returnFMP endpoint params options result)) = [].
Proof.
  unfold returnFMP, summarizeData, do_writeCache, emit, ret, throw, bind.
  now destruct (cacheable_set options), (own_entries (data result)).
Qed.

Lemma requests_fetch_then {B} (w : World) (key label : string) (params : Params)
    (ticker : ParamValue) (sub subKey : string)
    (extra : option (list (string * string))) (skip : bool)
    (k : ApiResponse -> M B) :
  (forall a, requests (fst (k a)) = []) ->
  requests (fst (bind (await (fetchFMP w key label params ticker sub subKey
                                extra skip)) k))
  = [sub_request key params ticker sub extra skip].
Proof.
  intros Hk. rewrite fetch_then. cbv zeta.
  destruct (answer w _) as [d|]; [|reflexivity].
  specialize (Hk (mkApiResponse (VObject [(subKey, d)])
                    (resource (sub_request key params ticker sub extra skip)))).
  destruct (k _) as [t' r]. cbn [fst] in *.
  change (EvFetch ?r :: t') with ([EvFetch r] ++ t')%list.
  now rewrite requests_app, Hk.
Qed.

Lemma filter_filings_trace (params : Params) (result : ApiResponse) :
  fst (filter_filings params result) = [].
Proof.
  unfold filter_filings.
  destruct (truthy (param params "filing_type")); [|reflexivity].
  destruct (get (data result) "filings"); try reflexivity.
  now destruct (filter_by_type _ elems).
Qed.

(** The requests of the FMP branch are those of the table, whatever the
    network answers. *)
Lemma callSecondary_requests (w : World) (label endpoint : string)
    (params : Params) (options : option Options) :
  truthy (param params "ticker") = true ->
  requests (fst (callSecondary w (env_value (env_FMP_API_KEY w)) label
                   endpoint params options))
  = rule_requests w params (matchRule endpoint).
Proof.
  intros Hticker. unfold callSecondary. rewrite Hticker. cbn [negb].
  destruct (matchRule endpoint); try reflexivity;
    try (apply requests_fetch_then; intros a; apply requests_returnFMP).
  - unfold callFinancials. rewrite !fetchFMP_eq. cbv zeta.
    unfold Promise_all, bind.
    cbn [map fst snd concat app].
    destruct (first_rejection _) as [[i e]|]; [reflexivity|].
    destruct (fulfilled_values _) as [|income [|balance [|cash [|x rest]]]];
      try reflexivity.
    unfold summarizeData, do_writeCache, emit, ret. cbn.
    now destruct (cacheable_set options).
  - apply requests_fetch_then. intros a. unfold bind.
    pose proof (filter_filings_trace params a) as Hf.
    destruct (filter_filings params a) as [t [a' | e]]; cbn [fst] in Hf; subst t.
    + pose proof (requests_returnFMP endpoint params options a') as Hr.
      destruct (returnFMP endpoint params options a') as [t' r]. exact Hr.
    + reflexivity.
Qed.

Lemma callApi_requests (w : World) (endpoint : string) (params : Params)
    (options : option Options) (req : Request) :
  only_secondary_set w ->
  In req (requests (fst (callApi w endpoint params options))) ->
  In req (rule_requests w params (matchRule endpoint)).
Proof.
  intros Hsec Hin.
  destruct (secondary_request_inv _ _ _ _ _ Hsec Hin) as [Hmiss Hticker].
  rewrite (callApi_secondary _ _ _ _ Hsec Hmiss) in Hin. cbn [fst] in Hin.
  rewrite requests_app, requests_cache_probe in Hin. cbn [app] in Hin.
  now rewrite callSecondary_requests in Hin.
Qed.

Lemma getAll_date_range (params : Params) (k : string) :
  k <> "from" -> k <> "to" ->
  getAll (mkURL "" (date_range params)) k = [].
Proof.
  intros Hfrom Hto. unfold getAll, date_range. cbn [appended].
  apply String.eqb_neq in Hfrom, Hto. rewrite String.eqb_sym in Hfrom, Hto.
  destruct (truthy (param params "start_date")),
    (truthy (param params "end_date"));
    cbn [app filter fst]; rewrite ?Hfrom, ?Hto; reflexivity.
Qed.

(** X16. Every request of the FMP branch names the company by the
    string form of the ticker, once: under [symbol], except for the news,
    where it goes under [symbols] and no [symbol] is sent. *)
Theorem fmp_ticker_entry (w : World) (endpoint : string) (params : Params)
    (options : option Options) :
  only_secondary_set w ->
  issues (names_ticker params (matchRule endpoint))
    (callApi w endpoint params options).
Proof.
  intros Hsec req Hin. apply callApi_requests in Hin; [|exact Hsec].
  unfold names_ticker.
  destruct (matchRule endpoint); cbn [rule_requests In] in Hin;
    repeat match goal with
           | H : _ \/ _ |- _ => destruct H as [H | H]
           | H : False |- _ => destruct H
           end;
    subst req; unfold sub_request; cbn [resource];
    (eexists; split; [reflexivity|]);
    rewrite fmp_url_entries; unfold getAll; cbn [appended];
    rewrite !filter_app, !map_app;
    try (pose proof (getAll_date_range params "symbol") as Hd1;
         pose proof (getAll_date_range params "symbols") as Hd2;
         unfold getAll in Hd1, Hd2; cbn [appended] in Hd1, Hd2;
         cbn [filter fst String.eqb Ascii.eqb Bool.eqb andb map snd app];
         rewrite ?Hd1, ?Hd2 by discriminate);
    destruct (truthy (param params "limit")),
      (strict_eq_string (param params "period") "quarterly"); split; reflexivity.
Qed.

Lemma fmp_ticker_entry_witness :
  names_ticker [("ticker", PString "AAPL"); ("limit", PNumber (Number_of_Z 10))] (matchRule "/news/")
    (mkRequest (fmp "/news/stock"
                  [("apikey", "fmp-key"); ("limit", "10"); ("symbols", "AAPL")]) []).
Proof.
  apply (fmp_ticker_entry (world_fmp (VArray [])) "/news/"
           [("ticker", PString "AAPL"); ("limit", PNumber (Number_of_Z 10))] None).
  - split; reflexivity.
  - left; reflexivity.
Defined.



(** The result of the FMP branch when its one request is answered. *)
Ltac answered_rule Hsec Hin Hans :=
  let Hmiss := fresh "Hmiss" in
  let Hticker := fresh "Hticker" in
  destruct (secondary_request_inv _ _ _ _ _ Hsec Hin) as [Hmiss Hticker];
  apply callApi_requests in Hin; [|exact Hsec];
  rewrite (callApi_secondary _ _ _ _ Hsec Hmiss); cbn [fst snd];
  unfold callSecondary; rewrite Hticker; cbn [negb].

(** X18. The rules for income statements, balance sheets, cash-flow
    statements, segmented revenues, financial metrics, analyst
    estimates, insider trades and news return the parsed answer of the
    backend untouched, under the key of the rule, with the address of
    the request. *)
Theorem plain_rules_pass_through (w : World) (endpoint : string)
    (params : Params) (options : option Options) (req : Request) (raw : Value) :
  only_secondary_set w ->
  plain_rule (matchRule endpoint) = true ->
  In req (requests (fst (callApi w endpoint params options))) ->
  answer w req = Some raw ->
  exists key,
    result_key (matchRule endpoint) = Some key /\
    snd (callApi w endpoint params options)
    = Ok (mkApiResponse (VObject [(key, raw)]) (resource req)).
Proof.
  intros Hsec Hplain Hin Hans. answered_rule Hsec Hin Hans.
  destruct (matchRule endpoint); try discriminate Hplain;
    cbn [rule_requests In] in Hin; destruct Hin as [<- | []];
    rewrite fetch_then; cbv zeta; rewrite Hans;
    unfold returnFMP, summarizeData, do_writeCache, emit, ret, bind; cbn;
    destruct (cacheable_set options); cbn; eexists; split; reflexivity.
Qed.

Lemma plain_rules_pass_through_witness :
  exists key,
    result_key (matchRule "/insider-trades/") = Some key /\
    snd (callApi (world_fmp income_rows) "/insider-trades/" aapl None)
    = Ok (mkApiResponse (VObject [(key, income_rows)])
            (fmp "/insider-trading/search" [("symbol", "AAPL"); ("apikey", "fmp-key")])).
Proof.
  apply (plain_rules_pass_through (world_fmp income_rows) "/insider-trades/" aapl None
           (mkRequest (fmp "/insider-trading/search"
                         [("symbol", "AAPL"); ("apikey", "fmp-key")]) [])
           income_rows).
  - split; reflexivity.
  - reflexivity.
  - left; reflexivity.
  - reflexivity.
Defined.

(** X19. The [/prices/] rule returns, under [prices], the [historical]
    property of the answer when the answer is an object that has one,
    and the answer itself otherwise. *)
Theorem prices_historical (w : World) (params : Params)
    (options : option Options) (req : Request) (raw : Value) :
  only_secondary_set w ->
  In req (requests (fst (callApi w "/prices/" params options))) ->
  answer w req = Some raw ->
  exists v,
    snd (callApi w "/prices/" params options)
    = Ok (mkApiResponse (VObject [("prices", v)]) (resource req)) /\
    (forall inner, raw = VObject inner -> has_key inner "historical" = true ->
       v = get_prop inner "historical") /\
    (forall inner, raw = VObject inner -> has_key inner "historical" = false ->
       v = raw) /\
    (is_object raw = false -> v = raw).
Proof.
  intros Hsec Hin Hans. answered_rule Hsec Hin Hans.
  change (matchRule "/prices/") with RPrices in *.
  cbn [rule_requests In] in Hin. destruct Hin as [<- | []].
  cbv iota. rewrite fetch_then. cbv zeta. rewrite Hans.
  unfold returnFMP, extract_historical, summarizeData, do_writeCache, emit, ret, bind.
  cbn [data url get get_prop String.eqb Ascii.eqb Bool.eqb own_entries].
  eexists. split; [now destruct (cacheable_set options)|].
  split; [|split].
  - intros inner -> Hhas. now rewrite Hhas.
  - intros inner -> Hhas. now rewrite Hhas.
  - now destruct raw.
Qed.

Lemma prices_historical_witness :
  exists v,
    snd (callApi (world_fmp historical_body) "/prices/" aapl None)
    = Ok (mkApiResponse (VObject [("prices", v)])
            (fmp "/historical-price-eod/full"
               [("symbol", "AAPL"); ("apikey", "fmp-key")])) /\
    v = VArray [VObject [("date", VString "2024-12-31")]].
Proof.
  destruct (prices_historical (world_fmp historical_body) aapl None
              (mkRequest (fmp "/historical-price-eod/full"
                            [("symbol", "AAPL"); ("apikey", "fmp-key")]) [])
              historical_body) as (v & Hres & Hhist & _).
  - split; reflexivity.
  - left; reflexivity.
  - reflexivity.
  - exists v. split; [exact Hres|]. exact (Hhist _ eq_refl eq_refl).
Defined.

(** X20. The three rules that unwrap ([/financial-metrics/snapshot/],
    [/prices/snapshot], [/company/facts]) return, under their key, the
    first element of an array answer, [undefined] when that array is
    empty, and any other answer as it is. *)
Theorem unwrap_rules (w : World) (endpoint : string) (params : Params)
    (options : option Options) (req : Request) (raw : Value) :
  only_secondary_set w ->
  matchRule endpoint = RMetricsSnapshot \/ matchRule endpoint = RPricesSnapshot \/
  matchRule endpoint = RCompanyFacts ->
  In req (requests (fst (callApi w endpoint params options))) ->
  answer w req = Some raw ->
  exists key v,
    result_key (matchRule endpoint) = Some key /\
    snd (callApi w endpoint params options)
    = Ok (mkApiResponse (VObject [(key, v)]) (resource req)) /\
    (raw = VArray [] -> v = VUndefined) /\
    (forall x rest, raw = VArray (x :: rest) -> v = x) /\
    (isArray raw = false -> v = raw).
Proof.
  intros Hsec Hrule Hin Hans. answered_rule Hsec Hin Hans.
  destruct Hrule as [Hrule | [Hrule | Hrule]]; rewrite Hrule in *;
    cbn [rule_requests In] in Hin; destruct Hin as [<- | []];
    rewrite fetch_then; cbv zeta; rewrite Hans;
    unfold returnFMP, unwrap_first, summarizeData, do_writeCache, emit, ret, bind;
    cbn [data url get get_prop String.eqb Ascii.eqb Bool.eqb own_entries];
    do 2 eexists; (split; [reflexivity|]);
    (split; [now destruct (cacheable_set options)|]);
    (split; [now intros ->|]); (split; [now intros x rest ->|]);
    now destruct raw.
Qed.

Lemma unwrap_rules_witness :
  exists key v,
    result_key (matchRule "/company/facts") = Some key /\
    snd (callApi (world_fmp (VArray [])) "/company/facts" aapl None)
    = Ok (mkApiResponse (VObject [(key, v)])
            (fmp "/profile" [("symbol", "AAPL"); ("apikey", "fmp-key")])) /\
    v = VUndefined.
Proof.
  destruct (unwrap_rules (world_fmp (VArray [])) "/company/facts" aapl None
              (mkRequest (fmp "/profile" [("symbol", "AAPL"); ("apikey", "fmp-key")]) [])
              (VArray [])) as (key & v & Hkey & Hres & Hempty & _).
  - split; reflexivity.
  - right; right; reflexivity.
  - left; reflexivity.
  - reflexivity.
  - exists key, v. repeat split; auto.
Defined.

(** ** The filter of the filings, at its edges *)

Lemma filter_by_type_ok (wanted : string) (filings kept : list Value) :
  filter_by_type wanted filings = Ok kept -> existsb nullish filings = false.
Proof.
  revert kept. induction filings as [|f rest IH]; intros kept; cbn; [reflexivity|].
  destruct (type_is wanted f) as [keep|e] eqn:Hf; [|discriminate].
  destruct (filter_by_type wanted rest) as [kept'|e]; [|discriminate].
  intros _. rewrite (IH _ eq_refl), orb_false_r.
  destruct f; try reflexivity; discriminate.
Qed.

(** X21. When [filing_type] is truthy and the answer of the backend is
    an array that holds a [null], the call to [/filings/] fails with a
    [TypeError] after its request, and writes nothing to the cache. *)
Theorem filings_null_element (w : World) (params : Params)
    (options : option Options) (req : Request) (raw : list Value) :
  only_secondary_set w ->
  truthy (param params "filing_type") = true ->
  In req (requests (fst (callApi w "/filings/" params options))) ->
  answer w req = Some (VArray raw) ->
  existsb nullish raw = true ->
  callApi w "/filings/" params options
  = ((cache_probe "/filings/" params options ++ [EvFetch req])%list,
     Throw TypeError).
Proof.
  intros Hsec Hft Hin Hans Hnull. answered_rule Hsec Hin Hans.
  change (matchRule "/filings/") with RFilings in *.
  cbn [rule_requests In] in Hin. destruct Hin as [<- | []].
  cbv iota. rewrite fetch_then. cbv zeta. rewrite Hans.
  unfold filter_filings. cbn [data url]. rewrite get_single, Hft.
  destruct (filter_by_type (String_ (param params "filing_type")) raw)
    as [kept|e] eqn:Hfilter.
  - apply filter_by_type_ok in Hfilter. congruence.
  - destruct (filter_by_type_throws _ _ _ Hfilter) as [-> _]. reflexivity.
Qed.

(** X22. The call to [/filings/] returns the answer of the backend
    unfiltered, under [filings], when [filing_type] is absent or falsy,
    and also when the answer is not an array. *)
Theorem filings_unfiltered (w : World) (params : Params)
    (options : option Options) (req : Request) (raw : Value) :
  only_secondary_set w ->
  truthy (param params "filing_type") = false \/ isArray raw = false ->
  In req (requests (fst (callApi w "/filings/" params options))) ->
  answer w req = Some raw ->
  snd (callApi w "/filings/" params options)
  = Ok (mkApiResponse (VObject [("filings", raw)]) (resource req)).
Proof.
  intros Hsec Hcase Hin Hans. answered_rule Hsec Hin Hans.
  change (matchRule "/filings/") with RFilings in *.
  cbn [rule_requests In] in Hin. destruct Hin as [<- | []].
  cbv iota. rewrite fetch_then. cbv zeta. rewrite Hans.
  unfold filter_filings. cbn [data url]. rewrite get_single.
  assert (Hplain :
            snd (let '(t', r) :=
                   filtered <- ret (mkApiResponse (VObject [("filings", raw)])
                                      (resource (sub_request (env_value (env_FMP_API_KEY w))
                                                   params (param params "ticker")
                                                   "/sec-filings-search/symbol"
                                                   (Some [("from", toISOString_slice_0_10
                                                                     (now w - 365 * 86400000));
                                                          ("to", toISOString_slice_0_10 (now w))])
                                                   false))) ;;
                   returnFMP "/filings/" params options filtered in
                 (EvFetch (sub_request (env_value (env_FMP_API_KEY w)) params
                             (param params "ticker") "/sec-filings-search/symbol"
                             (Some [("from", toISOString_slice_0_10
                                               (now w - 365 * 86400000));
                                    ("to", toISOString_slice_0_10 (now w))]) false)
                  :: t', r))
            = Ok (mkApiResponse (VObject [("filings", raw)])
                    (resource (sub_request (env_value (env_FMP_API_KEY w)) params
                                 (param params "ticker") "/sec-filings-search/symbol"
                                 (Some [("from", toISOString_slice_0_10
                                                   (now w - 365 * 86400000));
                                        ("to", toISOString_slice_0_10 (now w))]) false)))).
  { rewrite bind_ret_l. erewrite returnFMP_object by reflexivity. reflexivity. }
  destruct Hcase as [Hft | Harr].
  - rewrite Hft. exact Hplain.
  - destruct (truthy (param params "filing_type")); [|exact Hplain].
    destruct raw; try exact Hplain. discriminate.
Qed.

Lemma filings_null_element_witness :
  callApi (world_fmp (VArray [filing "10-K"; VNull])) "/filings/" filings_params cache_on
  = ([EvReadCache "/filings/" filings_params;
      EvFetch (mkRequest (fmp "/sec-filings-search/symbol"
                            [("symbol", "AAPL"); ("apikey", "fmp-key"); ("limit", "5");
                             ("from", "2025-11-01"); ("to", "2026-11-01")]) [])],
     Throw TypeError).
Proof.
  apply (filings_null_element (world_fmp (VArray [filing "10-K"; VNull])) filings_params
           cache_on
           (mkRequest (fmp "/sec-filings-search/symbol"
                         [("symbol", "AAPL"); ("apikey", "fmp-key"); ("limit", "5");
                          ("from", "2025-11-01"); ("to", "2026-11-01")]) [])
           [filing "10-K"; VNull]).
  - split; reflexivity.
  - reflexivity.
  - left; reflexivity.
  - reflexivity.
  - reflexivity.
Defined.

Lemma filings_unfiltered_witness :
  snd (callApi (world_fmp filings_body) "/filings/" aapl None)
  = Ok (mkApiResponse (VObject [("filings", filings_body)])
          (fmp "/sec-filings-search/symbol"
             [("symbol", "AAPL"); ("apikey", "fmp-key");
              ("from", "2025-11-01"); ("to", "2026-11-01")])).
Proof.
  apply (filings_unfiltered (world_fmp filings_body) aapl None
           (mkRequest (fmp "/sec-filings-search/symbol"
                         [("symbol", "AAPL"); ("apikey", "fmp-key");
                          ("from", "2025-11-01"); ("to", "2026-11-01")]) [])
           filings_body).
  - split; reflexivity.
  - left; reflexivity.
  - left; reflexivity.
  - reflexivity.
Defined.

(** ** The filings tools *)

Lemma bind_ret_map {A B} (m : M A) (f : A -> B) :
  bind m (fun a => ret (f a))
  = (fst m, match snd m with Ok a => Ok (f a) | Throw e => Throw e end).
Proof. destruct m as [t [a | e]]; cbn; [now rewrite app_nil_r | reflexivity]. Qed.

(** X23. [getFilings] does what its one call to [callApi] does and
    nothing more: it never reads or writes the cache, it fails exactly
    when that call fails and with the same exception (reading
    [data.filings] never raises), and on success it formats
    [data.filings], or the empty array when that is missing or falsy,
    with the [url] of the response. *)
Theorem getFilings_follows_callApi {ToolResult : Type} (w : World)
    (format : Value -> list UrlText -> ToolResult) (input : FilingsInput) :
  let call := callApi w "/filings/" (getFilings_params input) None in
  let tool := getFilings w ToolResult format input in
  fst tool = fst call /\
  cache_reads (fst tool) = 0%nat /\ cache_writes (fst tool) = 0%nat /\
  (forall e, snd call = Throw e -> snd tool = Throw e) /\
  (forall resp, snd call = Ok resp ->
     snd tool
     = Ok (format (if value_truthy (get (data resp) "filings")
                   then get (data resp) "filings" else VArray [])
                  [url resp])).
Proof.
  cbv zeta. unfold getFilings.
  pose proof (callApi_no_cache_access w "/filings/"
                (getFilings_params input) None eq_refl) as [Hreads Hwrites].
  pose proof (callApi_data_not_null w "/filings/" (getFilings_params input) None)
    as Hnull.
  destruct (callApi w "/filings/" (getFilings_params input) None) as [t [resp | e]];
    cbn [fst snd] in *.
  - specialize (Hnull resp eq_refl).
    unfold bind, read_prop, ret.
    destruct (data resp) eqn:Hdata; try discriminate Hnull;
      cbn; rewrite !app_nil_r;
      (repeat split; [assumption | assumption | discriminate |]);
      now intros resp' [= <-]; rewrite Hdata.
  - cbn. repeat split; try assumption.
    + now intros e' [= <-].
    + discriminate.
Qed.

(** X24. Through [getFilings] on the FMP backend the type filter always
    applies when a filing type is chosen: for an array answer without
    [null], the tool formats exactly the filings of the chosen type, in
    their order (all of them when no type is chosen), with the address
    of the request, after that one request and no other effect. *)
Theorem getFilings_filters {ToolResult : Type} (w : World)
    (format : Value -> list UrlText -> ToolResult) (input : FilingsInput)
    (raw : list Value) :
  only_secondary_set w ->
  filings_ticker input <> "" ->
  let req :=
    sub_request (env_value (env_FMP_API_KEY w)) (getFilings_params input)
      (PString (filings_ticker input)) "/sec-filings-search/symbol"
      (Some [("from", toISOString_slice_0_10 (now w - 365 * 86400000));
             ("to", toISOString_slice_0_10 (now w))]) false in
  answer w req = Some (VArray raw) ->
  forallb (fun f => negb (nullish f)) raw = true ->
  getFilings w ToolResult format input
  = ([EvFetch req],
     Ok (format (VArray match filings_filing_type input with
                        | Some f => filter (has_type (FilingType_text f)) raw
                        | None => raw
                        end)
                [resource req])).
Proof.
  intros Hsec Hticker. cbv zeta. intros Hans Hnonnull.
  unfold getFilings.
  rewrite (callApi_secondary w "/filings/" (getFilings_params input) None Hsec eq_refl).
  cbn [cache_probe cacheable_set app].
  unfold callSecondary.
  change (param (getFilings_params input) "ticker") with (PString (filings_ticker input)).
  assert (Htruthy : truthy (PString (filings_ticker input)) = true).
  { cbn. destruct (String.eqb_spec (filings_ticker input) ""); [contradiction | reflexivity]. }
  rewrite Htruthy. cbn [negb].
  change (matchRule "/filings/") with RFilings. cbv iota.
  rewrite fetch_then. cbv zeta. rewrite Hans.
  unfold filter_filings. cbn [data url]. rewrite get_single.
  change (param (getFilings_params input) "filing_type")
    with (optional (fun f => PString (FilingType_text f)) (filings_filing_type input)).
  destruct (filings_filing_type input) as [f|]; cbn [optional truthy String_].
  - replace (negb (FilingType_text f =? "")) with true by (now destruct f).
    rewrite (filter_by_type_returns _ _ Hnonnull).
    rewrite bind_ret_l. erewrite returnFMP_object by reflexivity.
    cbn. reflexivity.
  - rewrite bind_ret_l. erewrite returnFMP_object by reflexivity.
    cbn. reflexivity.
Qed.

Lemma getFilings_filters_witness :
  getFilings (world_fmp filings_body) _ keep_both sample_filings_input
  = (let u := fmp "/sec-filings-search/symbol"
                [("symbol", "AAPL"); ("apikey", "fmp-key"); ("limit", "10");
                 ("from", "2025-11-01"); ("to", "2026-11-01")] in
     ([EvFetch (mkRequest u [])],
      Ok (VArray [filing "10-K"; filing "10-K"], [u]))).
Proof.
  apply (getFilings_filters (world_fmp filings_body) keep_both sample_filings_input
           [filing "10-K"; filing "8-K"; filing "10-Q"; filing "10-K"]).
  - split; reflexivity.
  - discriminate.
  - reflexivity.
  - reflexivity.
Defined.

(** X25. With only the FMP credential, the three filing-item tools do
    not reach any backend: unless the cache holds their response, they
    read the cache once and fail, with the message that names
    FINANCIAL_DATASETS_API_KEY, whatever the accession number and the
    items. *)
Theorem filing_items_need_primary {ToolResult : Type} (w : World)
    (toUpperCase : string -> string)
    (format : Value -> list UrlText -> ToolResult)
    (input : FilingItemsInput) (input8K : Filing8KItemsInput) :
  only_secondary_set w ->
  (forall params, readCache w "/filings/items/" params = None) ->
  toUpperCase (items_ticker input) <> "" ->
  toUpperCase (items8K_ticker input8K) <> "" ->
  get10KFilingItems w toUpperCase ToolResult format input
  = ([EvReadCache "/filings/items/" (filingItems_params toUpperCase "10-K" input)],
     Throw (Error filings_items_msg)) /\
  get10QFilingItems w toUpperCase ToolResult format input
  = ([EvReadCache "/filings/items/" (filingItems_params toUpperCase "10-Q" input)],
     Throw (Error filings_items_msg)) /\
  get8KFilingItems w toUpperCase ToolResult format input8K
  = ([EvReadCache "/filings/items/" (filing8KItems_params toUpperCase input8K)],
     Throw (Error filings_items_msg)) /\
  includes filings_items_msg "FINANCIAL_DATASETS_API_KEY" = true.
Proof.
  intros Hsec Hcache Hticker Hticker8.
  assert (Hcall : forall params t,
             param params "ticker" = PString t -> t <> "" ->
             callApi w "/filings/items/" params cacheable_true
             = ([EvReadCache "/filings/items/" params],
                Throw (Error filings_items_msg))).
  { intros params t Hparam Ht.
    rewrite (callApi_secondary w "/filings/items/" params cacheable_true Hsec
               (Hcache params)).
    unfold callSecondary. rewrite Hparam.
    replace (truthy (PString t)) with true
      by (cbn; now destruct (String.eqb_spec t "")).
    reflexivity. }
  unfold get10KFilingItems, get10QFilingItems, get8KFilingItems.
  rewrite !bind_ret_map.
  rewrite (Hcall (filingItems_params toUpperCase "10-K" input) _ eq_refl Hticker),
    (Hcall (filingItems_params toUpperCase "10-Q" input) _ eq_refl Hticker),
    (Hcall (filing8KItems_params toUpperCase input8K) _ eq_refl Hticker8).
  repeat split.
Qed.

Lemma filing_items_need_primary_witness :
  get10KFilingItems (world_fmp (VArray [])) upper_ascii _ keep_both sample_10K_input
  = ([EvReadCache "/filings/items/"
        [("ticker", PString "AAPL"); ("filing_type", PString "10-K");
         ("accession_number", PString "0000320193-24-000123");
         ("item", PArray ["Item-1"; "Item-7"])]],
     Throw (Error filings_items_msg)).
Proof.
  apply (filing_items_need_primary (world_fmp (VArray [])) upper_ascii keep_both
           sample_10K_input (mkFiling8KItemsInput "aapl" "0000320193-24-000123")).
  - split; reflexivity.
  - reflexivity.
  - discriminate.
  - discriminate.
Defined.

(** X26. With the Primary credential, a filing-item tool whose response
    is not in the cache reads the cache and then issues one request to
    [/filings/items/] whose query is the upper-cased ticker, the filing
    type of the tool, the accession number and one [item] entry per
    chosen item, in order (none when no item is chosen; the 8-K tool
    sends none). *)
Theorem filing_items_request {ToolResult : Type} (w : World)
    (toUpperCase : string -> string)
    (format : Value -> list UrlText -> ToolResult)
    (input : FilingItemsInput) (input8K : Filing8KItemsInput) :
  primary_set w ->
  (forall params, readCache w "/filings/items/" params = None) ->
  URL_parses w (BASE_URL ++ "/filings/items/") = true ->
  let request form ticker accession items :=
    mkRequest
      (toString
         (mkURL "https://api.financialdatasets.ai/filings/items/"
            ([("ticker", toUpperCase ticker); ("filing_type", form);
              ("accession_number", accession)]
             ++ map (fun item => ("item", item)) items)%list))
      [("x-api-key", env_value (env_FINANCIAL_DATASETS_API_KEY w))] in
  let chosen := match items_items input with Some l => l | None => [] end in
  (exists tail,
     fst (get10KFilingItems w toUpperCase ToolResult format input)
     = EvReadCache "/filings/items/" (filingItems_params toUpperCase "10-K" input)
       :: EvFetch (request "10-K" (items_ticker input)
                     (items_accession_number input) chosen) :: tail) /\
  (exists tail,
     fst (get10QFilingItems w toUpperCase ToolResult format input)
     = EvReadCache "/filings/items/" (filingItems_params toUpperCase "10-Q" input)
       :: EvFetch (request "10-Q" (items_ticker input)
                     (items_accession_number input) chosen) :: tail) /\
  (exists tail,
     fst (get8KFilingItems w toUpperCase ToolResult format input8K)
     = EvReadCache "/filings/items/" (filing8KItems_params toUpperCase input8K)
       :: EvFetch (request "8-K" (items8K_ticker input8K)
                     (items8K_accession_number input8K) []) :: tail).
Proof.
  intros Hfd Hcache Hparses. red in Hfd. cbv zeta.
  assert (Hcall : forall params,
             exists tail,
               fst (callApi w "/filings/items/" params cacheable_true)
               = EvReadCache "/filings/items/" params
                 :: EvFetch (primary_request w "/filings/items/" params) :: tail).
  { intros params.
    rewrite (callApi_miss w "/filings/items/" params cacheable_true (Hcache params)).
    unfold backend_call. rewrite Hfd.
    rewrite (callPrimary_cases _ _ _ _ _ _ Hparses). cbv zeta.
    fold (primary_request w "/filings/items/" params).
    destruct (answer w (primary_request w "/filings/items/" params));
      cbn [fst cache_probe cacheable_set cacheable_true app]; eauto. }
  unfold get10KFilingItems, get10QFilingItems, get8KFilingItems.
  rewrite !bind_ret_map. cbn [fst].
  destruct (Hcall (filingItems_params toUpperCase "10-K" input)) as [t1 ->].
  destruct (Hcall (filingItems_params toUpperCase "10-Q" input)) as [t2 ->].
  destruct (Hcall (filing8KItems_params toUpperCase input8K)) as [t3 ->].
  unfold primary_request, filingItems_params, filing8KItems_params, query_entries.
  destruct (items_items input) as [l|]; cbn; rewrite ?app_nil_r;
    repeat split; eexists; reflexivity.
Qed.

Lemma filing_items_request_witness :
  exists tail,
    fst (get10KFilingItems world_primary upper_ascii _ keep_both sample_10K_input)
    = EvReadCache "/filings/items/"
        [("ticker", PString "AAPL"); ("filing_type", PString "10-K");
         ("accession_number", PString "0000320193-24-000123");
         ("item", PArray ["Item-1"; "Item-7"])]
      :: EvFetch
           (mkRequest
              (toString
                 (mkURL "https://api.financialdatasets.ai/filings/items/"
                    [("ticker", "AAPL"); ("filing_type", "10-K");
                     ("accession_number", "0000320193-24-000123");
                     ("item", "Item-1"); ("item", "Item-7")]))
              [("x-api-key", "fd-key")]) :: tail.
Proof.
  apply (filing_items_request world_primary upper_ascii keep_both sample_10K_input
           (mkFiling8KItemsInput "aapl" "0000320193-24-000123"));
    reflexivity.
Defined.

(** X27. [getFilingItemTypes] never fails and never sends a credential:
    it issues one request without header to the item-types address and
    returns the parsed body when the request succeeds, and the static
    table otherwise (transport failure, non-success status, unparseable
    body). *)
Theorem getFilingItemTypes_falls_back (w : World) :
  let req := mkRequest (literal "https://api.financialdatasets.ai/filings/items/types/")
               [] in
  getFilingItemTypes w
  = ([EvFetch req],
     Ok match answer w req with
        | Some types => types
        | None => FALLBACK_ITEM_TYPES
        end).
Proof.
  cbv zeta. unfold getFilingItemTypes, answer, do_fetch, emit, ret, bind.
  cbn [ITEM_TYPES_URL].
  destruct (outcome (fetch w _)) as [cause | res]; cbn; [reflexivity|].
  destruct (ok res); cbn; [|reflexivity].
  now destruct (json res).
Qed.
